(** * PlanLingo: the schedule repairer, the timeline layout engine and the
      interactive editor, embedded from
      [frontend/src/services/scheduleAI.ts] and
      [frontend/src/components/ui/EnhancedScheduleTimeline.tsx]. *)

From Stdlib Require Import Floats.
From Stdlib Require Import ZArith QArith Qabs Qround Lqa String Ascii Lia.
From stdpp Require Import base list sorting.

Local Open Scope string_scope.
Local Open Scope list_scope.
Local Open Scope Z_scope.

(** ** JavaScript numbers, as far as the time code uses them

    Every number the time utilities produce on the modelled inputs is an
    integer or [NaN]; block durations are taken as integers of minutes. *)

Inductive num : Set :=
| NaN
| Int (z : Z).

Definition num_add (a b : num) : num :=
  match a, b with
  | Int x, Int y => Int (x + y)
  | _, _ => NaN
  end.

Definition num_sub (a b : num) : num :=
  match a, b with
  | Int x, Int y => Int (x - y)
  | _, _ => NaN
  end.

Definition num_mul (a b : num) : num :=
  match a, b with
  | Int x, Int y => Int (x * y)
  | _, _ => NaN
  end.

(** Comparisons with [NaN] are false. *)
Definition num_lt (a b : num) : bool :=
  match a, b with
  | Int x, Int y => x <? y
  | _, _ => false
  end.

Definition num_le (a b : num) : bool :=
  match a, b with
  | Int x, Int y => x <=? y
  | _, _ => false
  end.

Definition num_gt (a b : num) : bool := num_lt b a.
Definition num_ge (a b : num) : bool := num_le b a.

(** [a !== b] on numbers: [NaN] differs from everything, itself included. *)
Definition num_neq (a b : num) : bool :=
  match a, b with
  | Int x, Int y => negb (x =? y)
  | _, _ => true
  end.

(** [Math.max] and [Math.min] return [NaN] as soon as one argument is. *)
Definition Math_max (a b : num) : num :=
  match a, b with
  | Int x, Int y => Int (Z.max x y)
  | _, _ => NaN
  end.

Definition Math_min (a b : num) : num :=
  match a, b with
  | Int x, Int y => Int (Z.min x y)
  | _, _ => NaN
  end.

(** [Math.floor(a / d)] and [a % d] for a positive integer constant [d]. *)
Definition num_floor_div (a : num) (d : Z) : num :=
  match a with
  | Int x => Int (x / d)
  | NaN => NaN
  end.

Definition num_rem (a : num) (d : Z) : num :=
  match a with
  | Int x => Int (Z.rem x d)
  | NaN => NaN
  end.

Definition is_num (a : num) : bool :=
  match a with
  | Int _ => true
  | NaN => false
  end.

(** ** Strings *)

Definition is_digit (c : ascii) : bool :=
  (48 <=? nat_of_ascii c)%nat && (nat_of_ascii c <=? 57)%nat.

Definition digit_value (c : ascii) : Z := Z.of_nat (nat_of_ascii c) - 48.

Fixpoint digits_value (s : string) (acc : Z) : option Z :=
  match s with
  | EmptyString => Some acc
  | String c r =>
      if is_digit c then digits_value r (10 * acc + digit_value c) else None
  end.

Definition unsigned_literal (s : string) : num :=
  match s with
  | EmptyString => NaN
  | _ => match digits_value s 0 with
         | Some z => Int z
         | None => NaN
         end
  end.

(** [Number(s)] on the strings the time code meets: the empty string is 0,
    an optionally signed run of decimal digits is that integer, and any
    other text is [NaN].  Strings with blanks, a fraction, an exponent or a
    radix prefix are outside the modelled domain. *)
Definition Number (s : string) : num :=
  match s with
  | EmptyString => Int 0
  | String "-"%char r =>
      match unsigned_literal r with
      | Int z => Int (- z)
      | NaN => NaN
      end
  | String "+"%char r => unsigned_literal r
  | _ => unsigned_literal s
  end.

(** [s.split(':')]: always at least one piece. *)
Fixpoint split_colon_aux (s : string) (cur : string) : list string :=
  match s with
  | EmptyString => [cur]
  | String c r =>
      if Ascii.eqb c ":"%char then cur :: split_colon_aux r EmptyString
      else split_colon_aux r (cur ++ String c EmptyString)%string
  end.

Definition split_colon (s : string) : list string := split_colon_aux s EmptyString.

Definition digit_char (d : Z) : ascii := ascii_of_nat (Z.to_nat (48 + d)).

Fixpoint pos_digits (fuel : nat) (z : Z) (acc : string) : string :=
  match fuel with
  | O => acc
  | S f =>
      let acc' := String (digit_char (z mod 10)) acc in
      if z <? 10 then acc' else pos_digits f (z / 10) acc'
  end.

(** [String(n)] for an integer [n]: decimal digits, a leading [-] when
    negative. *)
Definition String_of_Z (z : Z) : string :=
  if z <? 0 then String "-"%char (pos_digits (Z.to_nat (- z)) (- z) EmptyString)
  else pos_digits (S (Z.to_nat z)) z EmptyString.

Definition String_of_num (a : num) : string :=
  match a with
  | NaN => "NaN"
  | Int z => String_of_Z z
  end.

Fixpoint repeat_char (c : ascii) (n : nat) : string :=
  match n with
  | O => EmptyString
  | S k => String c (repeat_char c k)
  end.

(** [s.padStart(n, '0')] *)
Definition padStart0 (n : nat) (s : string) : string :=
  (repeat_char "0"%char (n - String.length s) ++ s)%string.

(** ** Time utilities ([scheduleAI.ts], and the same helpers in the
       timeline component) *)

(** Reading an array of numbers at an index; a missing element is
    [undefined], which arithmetic turns into [NaN]. *)
Definition item (parts : list num) (i : nat) : num :=
  match parts !! i with
  | Some v => v
  | None => NaN
  end.

(** [const [hours, minutes] = time.split(':').map(Number);
     return hours * 60 + minutes;] *)
Definition timeToMinutes (time : string) : num :=
  let parts := map Number (split_colon time) in
  let hours := item parts 0 in
  let minutes := item parts 1 in
  num_add (num_mul hours (Int 60)) minutes.

(** [Math.floor(minutes / 60) % 24] and [minutes % 60]; [%] takes the sign
    of the dividend. *)
Definition minutesToTime (minutes : num) : string :=
  let hours := num_rem (num_floor_div minutes 60) 24 in
  let mins := num_rem minutes 60 in
  (padStart0 2 (String_of_num hours) ++ ":" ++ padStart0 2 (String_of_num mins))%string.

(** ** Data model ([ScheduleBlockSchema], [DailyScheduleSchema]) *)

Inductive BlockType : Set :=
| work | exercise | sleep | meal | break | personal | commute | wellness.

Inductive Priority : Set := low | medium | high.

Record ScheduleBlock : Set := mkBlock {
  b_id : string;
  b_title : string;
  startTime : string;
  endTime : string;
  duration : Z;
  b_type : BlockType;
  description : option string;
  priority : option Priority;
  flexible : option bool
}.

Record WorkLifeBalance : Set := mkBalance {
  workHours : Q;
  personalHours : Q;
  sleepHours : Q;
  exerciseMinutes : Z
}.

Record DailySchedule : Set := mkSchedule {
  blocks : list ScheduleBlock;
  totalHours : Q;
  workLifeBalance : WorkLifeBalance;
  suggestions : list string;
  optimizationScore : Z
}.

Definition type_eqb (a b : BlockType) : bool :=
  match a, b with
  | work, work | exercise, exercise | sleep, sleep | meal, meal
  | break, break | personal, personal | commute, commute
  | wellness, wellness => true
  | _, _ => false
  end.

(** ** [Array.prototype.sort] with a comparator

    The sort is stable; a comparator result that is [NaN] counts as 0.
    With a consistent comparator every stable sort returns the same array,
    here computed by insertion. *)
Section Sort.
Context {A : Type} (compareFn : A -> A -> num).

Definition sorts_after (a b : A) : bool := num_gt (compareFn a b) (Int 0).

Fixpoint insert_sorted (a : A) (l : list A) : list A :=
    match l with
    | [] => [a]
    | b :: l' => if sorts_after a b then b :: insert_sorted a l' else a :: l
    end.

Definition Array_sort (l : list A) : list A := foldr insert_sorted [] l.
End Sort.

(** ** Balance, suggestions and score ([scheduleAI.ts]) *)

Record Totals : Set := mkTotals {
  t_work : Z; t_personal : Z; t_sleep : Z; t_exercise : Z
}.

Definition addToTotals (totals : Totals) (block : ScheduleBlock) : Totals :=
  match b_type block with
  | work =>
      mkTotals (t_work totals + duration block) (t_personal totals)
               (t_sleep totals) (t_exercise totals)
  | personal | wellness =>
      mkTotals (t_work totals) (t_personal totals + duration block)
               (t_sleep totals) (t_exercise totals)
  | sleep =>
      mkTotals (t_work totals) (t_personal totals)
               (t_sleep totals + duration block) (t_exercise totals)
  | exercise =>
      mkTotals (t_work totals) (t_personal totals)
               (t_sleep totals) (t_exercise totals + duration block)
  | _ => totals
  end.

Definition calculateWorkLifeBalance (blocks : list ScheduleBlock) : WorkLifeBalance :=
  let totals := fold_left addToTotals blocks (mkTotals 0 0 0 0) in
  {| workHours := inject_Z (t_work totals) / 60;
     personalHours := inject_Z (t_personal totals) / 60;
     sleepHours := inject_Z (t_sleep totals) / 60;
     exerciseMinutes := t_exercise totals |}.

Definition Qlt_b (a b : Q) : bool := negb (Qle_bool b a).

Definition push_if (c : bool) (s : string) (l : list string) : list string :=
  if c then l ++ [s] else l.

Definition generateSmartSuggestions
    (blocks : list ScheduleBlock) (originalInput : string) : list string :=
  let totals := calculateWorkLifeBalance blocks in
  let suggestions := [] in
  let suggestions :=
    push_if (Qlt_b 9 (workHours totals))
      "Consider reducing work hours to improve work-life balance" suggestions in
  let suggestions :=
    push_if (exerciseMinutes totals <? 30)
      "Add at least 30 minutes of daily exercise for better health" suggestions in
  let suggestions :=
    push_if (Qlt_b (sleepHours totals) 7)
      "Increase sleep duration to 7-9 hours for optimal recovery" suggestions in
  let suggestions :=
    push_if (Qlt_b (personalHours totals) 2)
      "Schedule more personal time for relaxation and hobbies" suggestions in
  let workBlocks := List.filter (fun b => type_eqb (b_type b) work) blocks in
  let hasLongWorkSession := existsb (fun b => 240 <? duration b) workBlocks in
  let suggestions :=
    push_if hasLongWorkSession
      "Add short breaks during long work sessions to maintain productivity"
      suggestions in
  let suggestions :=
    match suggestions with
    | [] => ["Your schedule looks well-balanced!";
             "Consider adding variety to keep things interesting"]
    | _ => suggestions
    end in
  take 4 suggestions.

Fixpoint validateTimeGaps (blocks : list ScheduleBlock) : bool :=
  match blocks with
  | current :: ((next :: _) as rest) =>
      let currentEnd := timeToMinutes (endTime current) in
      let nextStart := timeToMinutes (startTime next) in
      let gap := num_sub nextStart currentEnd in
      if num_lt gap (Int 0) || num_gt gap (Int 180) then false
      else validateTimeGaps rest
  | _ => true
  end.

Definition calculateOptimizationScore (blocks : list ScheduleBlock) : Z :=
  let totals := calculateWorkLifeBalance blocks in
  let score := 100 in
  let score :=
    if Qlt_b 9 (workHours totals) then score - 15
    else if Qlt_b (workHours totals) 6 then score - 10 else score in
  let score := if Qlt_b (personalHours totals) 2 then score - 15 else score in
  let score :=
    if Qlt_b (sleepHours totals) 7 || Qlt_b 9 (sleepHours totals)
    then score - 20 else score in
  let score := if exerciseMinutes totals <? 30 then score - 20 else score in
  let hasMeals := existsb (fun b => type_eqb (b_type b) meal) blocks in
  let score := if negb hasMeals then score - 10 else score in
  let hasBreaks := existsb (fun b => type_eqb (b_type b) break) blocks in
  let score :=
    if negb hasBreaks && Qlt_b 6 (workHours totals) then score - 10 else score in
  let hasWellness := existsb (fun b => type_eqb (b_type b) wellness) blocks in
  let score := if negb hasWellness then score - 5 else score in
  let hasReasonableGaps := validateTimeGaps blocks in
  let score := if negb hasReasonableGaps then score - 5 else score in
  Z.max 0 (Z.min 100 score).

(** ** Block Repairer ([validateAndFixSchedule]) *)

(** The comparator of the sort: start minutes of [a] minus those of [b]. *)
Definition compareByStart (a b : ScheduleBlock) : num :=
  let timeA := map Number (split_colon (startTime a)) in
  let timeB := map Number (split_colon (startTime b)) in
  num_sub (num_add (num_mul (item timeA 0) (Int 60)) (item timeA 1))
          (num_add (num_mul (item timeB 0) (Int 60)) (item timeB 1)).

(** The [forEach] sweep, with its index and the running [lastEndTime]. *)
Fixpoint fixBlocks (sortedBlocks : list ScheduleBlock) (index : nat)
    (lastEndTime : string) : list ScheduleBlock :=
  match sortedBlocks with
  | [] => []
  | block :: rest =>
      let blockStartMinutes := timeToMinutes (startTime block) in
      let lastEndMinutes := timeToMinutes lastEndTime in
      let adjustedStartTime :=
        if num_lt blockStartMinutes lastEndMinutes then lastEndTime
        else startTime block in
      let adjustedStartMinutes := timeToMinutes adjustedStartTime in
      let duration' := Z.max (duration block) 15 in
      let endTime' :=
        minutesToTime (num_add adjustedStartMinutes (Int duration')) in
      let fixedBlock :=
        {| b_id := String_of_Z (Z.of_nat index + 1);
           b_title := b_title block;
           startTime := adjustedStartTime;
           endTime := endTime';
           duration := duration';
           b_type := b_type block;
           description := description block;
           priority := priority block;
           flexible := flexible block |} in
      fixedBlock :: fixBlocks rest (S index) endTime'
  end.

Definition validateAndFixSchedule
    (schedule : DailySchedule) (originalInput : string) : DailySchedule :=
  let sortedBlocks := Array_sort compareByStart (blocks schedule) in
  let fixedBlocks := fixBlocks sortedBlocks 0 "00:00" in
  {| blocks := fixedBlocks;
     totalHours := 24;
     workLifeBalance := calculateWorkLifeBalance fixedBlocks;
     suggestions := generateSmartSuggestions fixedBlocks originalInput;
     optimizationScore := calculateOptimizationScore fixedBlocks |}.

(** ** Time analytics ([generateTimeAnalytics])

    Here a division can have a zero divisor, so the results range over the
    rationals, [NaN] and the two infinities. *)

Inductive fnum : Set :=
| FNaN
| FPosInf
| FNegInf
| Fin (q : Q).

(** [a / b] for integers [a] and [b]. *)
Definition fdiv (a b : Z) : fnum :=
  if b =? 0 then
    if a =? 0 then FNaN else if 0 <? a then FPosInf else FNegInf
  else Fin (inject_Z a / inject_Z b).

(** Multiplication by a positive constant. *)
Definition fscale (x : fnum) (c : Q) : fnum :=
  match x with
  | Fin q => Fin (q * c)
  | other => other
  end.

(** [Math.round] on a rational: halves go up. *)
Definition Math_round (q : Q) : Z := Qfloor (q + (1 # 2)).

Definition fround (x : fnum) : fnum :=
  match x with
  | Fin q => Fin (inject_Z (Math_round q))
  | other => other
  end.

Definition typeName (t : BlockType) : string :=
  match t with
  | work => "work" | exercise => "exercise" | sleep => "sleep"
  | meal => "meal" | break => "break" | personal => "personal"
  | commute => "commute" | wellness => "wellness"
  end.

Definition getTypeColor (type : string) : string :=
  if String.eqb type "work" then "#3B82F6"
  else if String.eqb type "exercise" then "#10B981"
  else if String.eqb type "sleep" then "#6366F1"
  else if String.eqb type "meal" then "#F59E0B"
  else if String.eqb type "break" then "#EF4444"
  else if String.eqb type "personal" then "#8B5CF6"
  else if String.eqb type "commute" then "#6B7280"
  else if String.eqb type "wellness" then "#EC4899"
  else "#9CA3AF".

Definition toUpperCase_char (c : ascii) : ascii :=
  let n := nat_of_ascii c in
  if ((97 <=? n) && (n <=? 122))%nat then ascii_of_nat (n - 32) else c.

(** [type.charAt(0).toUpperCase() + type.slice(1)] *)
Definition capitalize (s : string) : string :=
  match s with
  | EmptyString => EmptyString
  | String c r => String (toUpperCase_char c) r
  end.

Record BreakdownItem : Set := mkItem {
  label : string;
  value : Q;
  minutes : Z;
  percentage : fnum;
  color : string
}.

Record BalancePercentages : Set := mkPercentages {
  workPercentage : fnum;
  personalPercentage : fnum;
  sleepPercentage : fnum
}.

Record TimeAnalytics : Set := mkAnalytics {
  breakdown : list BreakdownItem;
  ta_totalHours : Q;
  totalMinutes : Z;
  ta_workLifeBalance : BalancePercentages
}.

(** The [analytics] object: one counter per type, in the order of its keys. *)
Definition analyticsKeys : list BlockType :=
  [work; exercise; sleep; meal; break; personal; commute; wellness].

Definition Analytics : Set := BlockType -> Z.

Definition addToAnalytics (st : Analytics * Z) (block : ScheduleBlock) : Analytics * Z :=
  let '(analytics, total) := st in
  (fun t => if type_eqb t (b_type block) then analytics t + duration block
            else analytics t,
   total + duration block).

(** The [forEach] that fills [analytics] and [totalMinutes]. *)
Definition tallyAnalytics (schedule : list ScheduleBlock) : Analytics * Z :=
  fold_left addToAnalytics schedule (fun _ => 0, 0).

Definition generateTimeAnalytics (schedule : list ScheduleBlock) : TimeAnalytics :=
  let '(analytics, total) := tallyAnalytics schedule in
  let hoursAnalytics :=
    List.filter (fun it => 0 <? minutes it)
      (map (fun t =>
              let mins := analytics t in
              {| label := capitalize (typeName t);
                 value := inject_Z (Math_round ((inject_Z mins / 60) * 100)) / 100;
                 minutes := mins;
                 percentage :=
                   if 0 <? total then fround (fscale (fdiv mins total) 100)
                   else Fin 0;
                 color := getTypeColor (typeName t) |})
           analyticsKeys) in
  {| breakdown := hoursAnalytics;
     ta_totalHours := inject_Z (Math_round ((inject_Z total / 60) * 100)) / 100;
     totalMinutes := total;
     ta_workLifeBalance :=
       {| workPercentage := fround (fscale (fdiv (analytics work) total) 100);
          personalPercentage :=
            fround (fscale (fdiv (analytics personal + analytics wellness
                                  + analytics exercise) total) 100);
          sleepPercentage := fround (fscale (fdiv (analytics sleep) total) 100) |} |}.

(** ** Timeline constants and snapping ([EnhancedScheduleTimeline.tsx]) *)

Definition SNAP_MINUTES : Q := 5.
Definition HOUR_HEIGHT : Z := 60.
Definition MIN_EVENT_HEIGHT : Z := 20.

(** [snapToGrid] takes any number of minutes: a rational or [NaN]. *)
Inductive qnum : Set :=
| QNaN
| QNum (q : Q).

Definition num_to_q (a : num) : qnum :=
  match a with
  | Int z => QNum (inject_Z z)
  | NaN => QNaN
  end.

Definition qnum_add (a : qnum) (d : Q) : qnum :=
  match a with
  | QNum q => QNum (q + d)
  | QNaN => QNaN
  end.

(** [Math.round(minutes / SNAP_MINUTES) * SNAP_MINUTES] *)
Definition snapToGrid (minutes : qnum) : num :=
  match minutes with
  | QNum q => Int (Math_round (q / SNAP_MINUTES) * 5)
  | QNaN => NaN
  end.

(** ** Layout Engine ([layoutEvents]) *)

Record LayoutEvent : Set := mkEvent {
  ev_id : string;
  ev_title : string;
  ev_start : num;
  ev_end : num;
  ev_type : BlockType;
  originalBlock : ScheduleBlock;
  lane : nat;
  laneCount : nat;
  top : float;
  height : float
}.

(** [top] and [height] are pixel values that the source computes in
    doubles and does not round afterwards.  They are IEEE 754 binary64
    values here as well, with the source's operations in the source's
    order: [(9 / 1440) * 24 * 60] is 9.000000000000002, not 9. *)

(** The double nearest to an integer. *)
Definition float_of_Z (z : Z) : float :=
  SF2Prim (binary_normalize prec emax z 0 false).

Definition num_to_float (a : num) : float :=
  match a with
  | Int z => float_of_Z z
  | NaN => nan
  end.

(** [Math.max] on doubles: [NaN] as soon as one argument is, and [+0]
    above [-0]. *)
Definition Math_max_float (a b : float) : float :=
  if (is_nan a || is_nan b)%bool then nan
  else if (a <? b)%float then b
  else if (b <? a)%float then a
  else if is_zero a then (a + b)%float
  else a.

(** [(start / 1440) * 24 * HOUR_HEIGHT] *)
Definition eventTop (start : num) : float :=
  (num_to_float start / 1440 * 24 * float_of_Z HOUR_HEIGHT)%float.

(** [Math.max(((end - start) / 60) * HOUR_HEIGHT, MIN_EVENT_HEIGHT)] *)
Definition eventHeight (start end_ : num) : float :=
  Math_max_float
    (num_to_float (num_sub end_ start) / 60 * float_of_Z HOUR_HEIGHT)%float
    (float_of_Z MIN_EVENT_HEIGHT).

(** The [map] that turns a block into a layout event. *)
Definition toLayoutEvent (block : ScheduleBlock) : LayoutEvent :=
  let start := timeToMinutes (startTime block) in
  let end_ := timeToMinutes (endTime block) in
  let end_ := if num_lt end_ start then num_add end_ (Int 1440) else end_ in
  let end_ :=
    if num_lt (num_sub end_ start) (Int 5) then num_add start (Int 5) else end_ in
  {| ev_id := b_id block;
     ev_title := b_title block;
     ev_start := start;
     ev_end := end_;
     ev_type := b_type block;
     originalBlock := block;
     lane := 0%nat;
     laneCount := 1%nat;
     top := eventTop start;
     height := eventHeight start end_ |}.

(** Start time first, then the shorter event first. *)
Definition compareEvents (a b : LayoutEvent) : num :=
  if num_neq (ev_start a) (ev_start b) then num_sub (ev_start a) (ev_start b)
  else num_sub (num_sub (ev_end a) (ev_start a)) (num_sub (ev_end b) (ev_start b)).

Definition setLane (l : nat) (e : LayoutEvent) : LayoutEvent :=
  {| ev_id := ev_id e; ev_title := ev_title e; ev_start := ev_start e;
     ev_end := ev_end e; ev_type := ev_type e; originalBlock := originalBlock e;
     lane := l; laneCount := laneCount e; top := top e; height := height e |}.

Definition setLaneCount (c : nat) (e : LayoutEvent) : LayoutEvent :=
  {| ev_id := ev_id e; ev_title := ev_title e; ev_start := ev_start e;
     ev_end := ev_end e; ev_type := ev_type e; originalBlock := originalBlock e;
     lane := lane e; laneCount := c; top := top e; height := height e |}.

(** The event objects are shared between the sorted array and the groups:
    the array is the store, and a group holds positions in it. *)
Definition Group : Set := list nat.

Record LayoutState : Set := mkLayout {
  events : list LayoutEvent;
  groups : list Group
}.

(** [!(event.end <= groupEvent.start || event.start >= groupEvent.end)] *)
Definition overlapsEvent (event groupEvent : LayoutEvent) : bool :=
  negb (num_le (ev_end event) (ev_start groupEvent)
        || num_ge (ev_start event) (ev_end groupEvent)).

Definition groupEvents (store : list LayoutEvent) (group : Group) : list LayoutEvent :=
  omap (fun i => store !! i) group.

(** [group.some(groupEvent => ...)] *)
Definition overlapsGroup (store : list LayoutEvent) (event : LayoutEvent)
    (group : Group) : bool :=
  existsb (overlapsEvent event) (groupEvents store group).

(** [while (usedLanes.has(lane)) lane++]; the loop stops within
    [length usedLanes + 1] rounds. *)
Fixpoint firstFreeLane (usedLanes : list nat) (fuel : nat) (lane : nat) : nat :=
  match fuel with
  | O => lane
  | S fuel' =>
      if bool_decide (lane ∈ usedLanes) then firstFreeLane usedLanes fuel' (S lane)
      else lane
  end.

(** Position of the first group the event overlaps, if any. *)
Fixpoint findGroup (store : list LayoutEvent) (event : LayoutEvent)
    (gs : list Group) (k : nat) : option nat :=
  match gs with
  | [] => None
  | group :: rest =>
      if overlapsGroup store event group then Some k
      else findGroup store event rest (S k)
  end.

(** One round of [for (const event of layoutEvents)], for the event at
    position [i]. *)
Definition placeEvent (st : LayoutState) (i : nat) : LayoutState :=
  match events st !! i with
  | None => st
  | Some event =>
      match findGroup (events st) event (groups st) 0 with
      | Some k =>
          let group := default [] (groups st !! k) in
          let usedLanes := map lane (groupEvents (events st) group) in
          let lane' := firstFreeLane usedLanes (S (length usedLanes)) 0 in
          {| events := alter (setLane lane') i (events st);
             groups := alter (fun g => g ++ [i]) k (groups st) |}
      | None =>
          {| events := alter (setLane 0) i (events st);
             groups := groups st ++ [[i]] |}
      end
  end.

(** [Math.max(...group.map(e => e.lane))]; a group is never empty. *)
Definition maxLane (store : list LayoutEvent) (group : Group) : nat :=
  foldr Nat.max 0%nat (map lane (groupEvents store group)).

(** The closing loop over the groups. *)
Definition assignLaneCount (store : list LayoutEvent) (group : Group) : list LayoutEvent :=
  let laneCount' := (maxLane store group + 1)%nat in
  fold_left (fun s i => alter (setLaneCount laneCount') i s) group store.

(** The events of the blocks, converted and sorted. *)
Definition sortedEvents (blocks : list ScheduleBlock) : list LayoutEvent :=
  Array_sort compareEvents (map toLayoutEvent blocks).

(** The [for] loop over the sorted events. *)
Definition assignLanes (layoutEvents : list LayoutEvent) : LayoutState :=
  fold_left placeEvent (seq 0 (length layoutEvents))
    {| events := layoutEvents; groups := [] |}.

Definition layoutState (blocks : list ScheduleBlock) : LayoutState :=
  let st := assignLanes (sortedEvents blocks) in
  {| events := fold_left assignLaneCount (groups st) (events st);
     groups := groups st |}.

Definition layoutEvents (blocks : list ScheduleBlock) : list LayoutEvent :=
  match blocks with
  | [] => []
  | _ => events (layoutState blocks)
  end.

(** ** Interactive Editor ([handleKeyDown], [handleMouseDown],
       [handleResizeMouseDown], and [handleBlockUpdate] of the planner) *)

(** [Partial<ScheduleBlock>]: the fields an update carries. *)
Record BlockUpdates : Set := mkUpdates {
  u_id : option string;
  u_title : option string;
  u_startTime : option string;
  u_endTime : option string;
  u_duration : option Z;
  u_type : option BlockType;
  u_description : option (option string);
  u_priority : option (option Priority);
  u_flexible : option (option bool)
}.

Definition noUpdates : BlockUpdates :=
  mkUpdates None None None None None None None None None.

(** [{ startTime, endTime }] and [{ endTime }] *)
Definition updateTimes (newStartTime newEndTime : string) : BlockUpdates :=
  mkUpdates None None (Some newStartTime) (Some newEndTime) None None None None None.

Definition updateEndTime (newEndTime : string) : BlockUpdates :=
  mkUpdates None None None (Some newEndTime) None None None None None.

(** [{ ...block, ...updates }] *)
Definition mergeUpdates (block : ScheduleBlock) (updates : BlockUpdates) : ScheduleBlock :=
  {| b_id := default (b_id block) (u_id updates);
     b_title := default (b_title block) (u_title updates);
     startTime := default (startTime block) (u_startTime updates);
     endTime := default (endTime block) (u_endTime updates);
     duration := default (duration block) (u_duration updates);
     b_type := default (b_type block) (u_type updates);
     description := default (description block) (u_description updates);
     priority := default (priority block) (u_priority updates);
     flexible := default (flexible block) (u_flexible updates) |}.

(** [handleBlockUpdate] of [ModernPlannerInterface.tsx], the [onBlockUpdate]
    the timeline is given. *)
Definition handleBlockUpdate (blocks : list ScheduleBlock) (blockId : string)
    (updates : BlockUpdates) : list ScheduleBlock :=
  map (fun block =>
         if String.eqb (b_id block) blockId then mergeUpdates block updates
         else block) blocks.

(** What a handler asks of its callbacks. *)
Inductive EditorAction : Set :=
| OnBlockUpdate (blockId : string) (updates : BlockUpdates)
| OnBlockDelete (blockId : string)
| StartEditing (blockId : string).

Record KeyboardEvent : Set := mkKey {
  key : string;
  shiftKey : bool
}.

Definition findBlock (blocks : list ScheduleBlock) (blockId : string) : option ScheduleBlock :=
  find (fun b => String.eqb (b_id b) blockId) blocks.

(** The [switch (event.key)] of [handleKeyDown]. *)
Definition handleKeyDown (blocks : list ScheduleBlock) (event : KeyboardEvent)
    (blockId : string) : option EditorAction :=
  match findBlock blocks blockId with
  | None => None
  | Some block =>
      let currentStartTime := timeToMinutes (startTime block) in
      let currentEndTime := timeToMinutes (endTime block) in
      let duration := num_sub currentEndTime currentStartTime in
      if String.eqb (key event) "ArrowUp" then
        let newStartTime :=
          Math_max (Int 0) (snapToGrid (num_to_q (num_sub currentStartTime (Int 15)))) in
        Some (OnBlockUpdate blockId
                (updateTimes (minutesToTime newStartTime)
                             (minutesToTime (num_add newStartTime duration))))
      else if String.eqb (key event) "ArrowDown" then
        let newStartTime :=
          Math_min (num_sub (Int 1440) duration)
                   (snapToGrid (num_to_q (num_add currentStartTime (Int 15)))) in
        Some (OnBlockUpdate blockId
                (updateTimes (minutesToTime newStartTime)
                             (minutesToTime (num_add newStartTime duration))))
      else if String.eqb (key event) "Shift+ArrowUp" then
        let newEndTime :=
          Math_max (num_add currentStartTime (Int 15))
                   (snapToGrid (num_to_q (num_sub currentEndTime (Int 15)))) in
        Some (OnBlockUpdate blockId (updateEndTime (minutesToTime newEndTime)))
      else if String.eqb (key event) "Shift+ArrowDown" then
        let newEndTime :=
          Math_min (Int 1440)
                   (snapToGrid (num_to_q (num_add currentEndTime (Int 15)))) in
        Some (OnBlockUpdate blockId (updateEndTime (minutesToTime newEndTime)))
      else if String.eqb (key event) "Enter" || String.eqb (key event) " " then
        Some (StartEditing blockId)
      else if String.eqb (key event) "Delete" || String.eqb (key event) "Backspace" then
        Some (OnBlockDelete blockId)
      else None
  end.

(** Pointer positions ([clientY]) are whole pixels, as mouse events report
    them.  The candidate time [original + (deltaY / HOUR_HEIGHT) * 60] of a
    move is then an integer.  The source computes it in doubles, which
    leaves it within a rounding error of that integer far below the half
    minute up to which [snapToGrid] returns the same mark
    ([snapToGrid_near_integer]); the arithmetic here is exact. *)

(** What [handleMouseDown] captures for the moves that follow. *)
Record DragState : Set := mkDrag {
  dragBlockId : string;
  dragBlock : ScheduleBlock;
  dragStartY : Z;
  dragOriginalStartTime : num
}.

Definition handleMouseDown (blocks : list ScheduleBlock) (button : Z)
    (clientY : Z) (blockId : string) : option DragState :=
  if negb (button =? 0) then None
  else
    match findBlock blocks blockId with
    | None => None
    | Some block =>
        Some {| dragBlockId := blockId;
                dragBlock := block;
                dragStartY := clientY;
                dragOriginalStartTime := timeToMinutes (startTime block) |}
    end.

(** The [handleMouseMove] of a drag; [timelineMounted] is
    [timelineRef.current] being set. *)
Definition dragMouseMove (timelineMounted : bool) (st : DragState)
    (clientY : Z) : option EditorAction :=
  if negb timelineMounted then None
  else
    let deltaY := clientY - dragStartY st in
    let deltaMinutes := ((inject_Z deltaY / inject_Z HOUR_HEIGHT) * 60)%Q in
    let newStartMinutes :=
      snapToGrid (qnum_add (num_to_q (dragOriginalStartTime st)) deltaMinutes) in
    let block := dragBlock st in
    let duration :=
      num_sub (timeToMinutes (endTime block)) (timeToMinutes (startTime block)) in
    let clampedStartMinutes :=
      Math_max (Int 0) (Math_min (num_sub (Int 1440) duration) newStartMinutes) in
    let newStartTime := minutesToTime clampedStartMinutes in
    let newEndTime := minutesToTime (num_add clampedStartMinutes duration) in
    Some (OnBlockUpdate (dragBlockId st) (updateTimes newStartTime newEndTime)).

(** What [handleResizeMouseDown] captures. *)
Record ResizeState : Set := mkResize {
  resizeBlockId : string;
  resizeStartY : Z;
  resizeOriginalEndTime : num;
  resizeOriginalStartTime : num
}.

Definition handleResizeMouseDown (blocks : list ScheduleBlock) (button : Z)
    (clientY : Z) (blockId : string) : option ResizeState :=
  if negb (button =? 0) then None
  else
    match findBlock blocks blockId with
    | None => None
    | Some block =>
        Some {| resizeBlockId := blockId;
                resizeStartY := clientY;
                resizeOriginalEndTime := timeToMinutes (endTime block);
                resizeOriginalStartTime := timeToMinutes (startTime block) |}
    end.

(** The [handleMouseMove] of a resize. *)
Definition resizeMouseMove (timelineMounted : bool) (st : ResizeState)
    (clientY : Z) : option EditorAction :=
  if negb timelineMounted then None
  else
    let deltaY := clientY - resizeStartY st in
    let deltaMinutes := ((inject_Z deltaY / inject_Z HOUR_HEIGHT) * 60)%Q in
    let newEndMinutes :=
      snapToGrid (qnum_add (num_to_q (resizeOriginalEndTime st)) deltaMinutes) in
    let minEndTime := num_add (resizeOriginalStartTime st) (Int 15) in
    let maxEndTime := Int 1440 in
    let clampedEndMinutes :=
      Math_max minEndTime (Math_min maxEndTime newEndMinutes) in
    let newEndTime := minutesToTime clampedEndMinutes in
    Some (OnBlockUpdate (resizeBlockId st) (updateEndTime newEndTime)).

(** The planner applies the action to its block list. *)
Definition applyAction (blocks : list ScheduleBlock) (a : option EditorAction)
    : list ScheduleBlock :=
  match a with
  | Some (OnBlockUpdate blockId updates) => handleBlockUpdate blocks blockId updates
  | Some (OnBlockDelete blockId) =>
      List.filter (fun block => negb (String.eqb (b_id block) blockId)) blocks
  | _ => blocks
  end.

(** The duration invariant of the data model:
    [duration == (endTime - startTime) mod 1440]. *)
Definition duration_invariant (block : ScheduleBlock) : bool :=
  match num_sub (timeToMinutes (endTime block)) (timeToMinutes (startTime block)) with
  | Int d => duration block =? d mod 1440
  | NaN => false
  end.

(** A well-formed [HH:MM]: two digits, a colon, two digits, hours below 24
    and minutes below 60. *)
Definition wf_time (t : string) : bool :=
  match t with
  | String a (String b (String c (String d (String e EmptyString)))) =>
      is_digit a && is_digit b && Ascii.eqb c ":"%char && is_digit d && is_digit e
      && (10 * digit_value a + digit_value b <? 24)
      && (10 * digit_value d + digit_value e <? 60)
  | _ => false
  end.

(** The time [h:mi] as [minutesToTime] prints it. *)
Definition fmt (h mi : Z) : string :=
  (padStart0 2 (String_of_Z h) ++ ":" ++ padStart0 2 (String_of_Z mi))%string.

Definition has_colon (t : string) : bool :=
  existsb (fun c => Ascii.eqb c ":"%char) (list_ascii_of_string t).

(** Bounded checks, run once over all times of a day. *)
Definition range (n : nat) : list Z := map Z.of_nat (seq 0 n).

Definition check_fmt : bool :=
  forallb (fun h =>
    forallb (fun mi =>
      match timeToMinutes (fmt h mi) with
      | Int z => (z =? 60 * h + mi) && wf_time (fmt h mi)
      | NaN => false
      end) (range 60)) (range 24).

Definition digitChars : list ascii := map ascii_of_nat (seq 48 10).

Definition check_wf : bool :=
  forallb (fun a => forallb (fun b => forallb (fun d => forallb (fun e =>
    let t := String a (String b (String ":" (String d (String e EmptyString)))) in
    implb (wf_time t)
      match timeToMinutes t with
      | Int z => (0 <=? z) && (z <? 1440)
      | NaN => false
      end) digitChars) digitChars) digitChars) digitChars.

(** What the sweep establishes along its output, from the minute
    [prevEnd] on: each block starts no earlier than its predecessor ended,
    lasts at least 15 minutes and ends at start plus duration, on the
    24-hour face. *)
Fixpoint repaired_from (prevEnd : Z) (l : list ScheduleBlock) : Prop :=
  match l with
  | [] => True
  | b :: r =>
      exists A,
        timeToMinutes (startTime b) = Int A /\ prevEnd <= A /\
        15 <= duration b /\
        timeToMinutes (endTime b) = Int ((A + duration b) mod 1440) /\
        repaired_from ((A + duration b) mod 1440) r
  end.

Definition parses (t : string) : bool := is_num (timeToMinutes t).

(** The block ends before midnight of the day it starts on. *)
Definition ends_same_day (b : ScheduleBlock) : bool :=
  num_lt (num_add (timeToMinutes (startTime b)) (Int (duration b))) (Int 1440).

(** Two blocks overlap when each starts before the other is over, a block
    taken as the [duration] minutes from its start. *)
Definition blocksOverlap (a b : ScheduleBlock) : bool :=
  num_lt (timeToMinutes (startTime a))
         (num_add (timeToMinutes (startTime b)) (Int (duration b)))
  && num_lt (timeToMinutes (startTime b))
            (num_add (timeToMinutes (startTime a)) (Int (duration a))).

Definition mkDay (bs : list ScheduleBlock) : DailySchedule :=
  mkSchedule bs 24 (mkBalance 0 0 0 0) [] 0.

Definition lateEvening : list ScheduleBlock :=
  [mkBlock "a" "Film" "21:00" "23:00" 120 personal None None None;
   mkBlock "b" "Sleep" "22:00" "06:00" 480 sleep None None None;
   mkBlock "c" "Reading" "22:30" "23:00" 30 personal None None None].

Definition acrossMidnight : list ScheduleBlock :=
  [mkBlock "a" "Film" "23:30" "00:30" 60 personal None None None;
   mkBlock "b" "Call" "23:45" "00:15" 30 personal None None None].

Definition workAndSleep : list ScheduleBlock :=
  [mkBlock "a" "Work" "09:00" "17:00" 480 work None None None;
   mkBlock "b" "Sleep" "23:00" "07:00" 480 sleep None None None].

Definition morning : list ScheduleBlock :=
  [mkBlock "a" "Standup" "09:30" "10:00" 30 work None None None;
   mkBlock "b" "Email" "09:00" "10:00" 60 work None None None;
   mkBlock "c" "Lunch" "12:00" "13:00" 60 meal None None None].


Definition meeting : ScheduleBlock :=
  mkBlock "1" "Meeting" "09:00" "10:00" 60 work None None None.

Definition offGrid : ScheduleBlock :=
  mkBlock "1" "Call" "09:03" "09:48" 45 work None None None.

(** The event a browser dispatches for the Up arrow with Shift held: the
    key is still [ArrowUp], and Shift shows in [shiftKey]. *)
Definition shiftArrowUp : KeyboardEvent := mkKey "ArrowUp" true.

(** The interval of an event, and events whose interval is made of
    numbers and spans the 5 minutes the conversion enforces. *)
Definition interval (e : LayoutEvent) : num * num := (ev_start e, ev_end e).

Definition timed (e : LayoutEvent) : Prop :=
  exists s en, ev_start e = Int s /\ ev_end e = Int en /\ s + 5 <= en.

Definition starts_before (x y : LayoutEvent) : Prop :=
  num_le (ev_start x) (ev_start y) = true.

Definition parsesBoth (b : ScheduleBlock) : bool :=
  parses (startTime b) && parses (endTime b).



(** What the closing loop leaves alone. *)
Definition placed (e : LayoutEvent) : nat * (num * num) := (lane e, interval e).

Definition scenarioC : list ScheduleBlock :=
  [mkBlock "1" "Workshop" "09:00" "11:00" 120 work None None None;
   mkBlock "2" "Call" "10:00" "10:30" 30 work None None None;
   mkBlock "3" "Coffee" "10:15" "10:45" 30 break None None None].

(** ** Further code of the same files *)

(** [addMinutesToTime] of [scheduleAI.ts]. *)
Definition addMinutesToTime (time : string) (minutes : Z) : string :=
  let parts := map Number (split_colon time) in
  let hours := item parts 0 in
  let mins := item parts 1 in
  let totalMinutes := num_add (num_add (num_mul hours (Int 60)) mins) (Int minutes) in
  let newHours := num_rem (num_floor_div totalMinutes 60) 24 in
  let newMins := num_rem totalMinutes 60 in
  (padStart0 2 (String_of_num newHours) ++ ":" ++ padStart0 2 (String_of_num newMins))%string.

Definition check_wf_print : bool :=
  forallb (fun a => forallb (fun b => forallb (fun d => forallb (fun e =>
    let t := String a (String b (String ":" (String d (String e EmptyString)))) in
    implb (wf_time t) (String.eqb (minutesToTime (timeToMinutes t)) t))
    digitChars) digitChars) digitChars) digitChars.

Definition sumZ (l : list Z) : Z := fold_right Z.add 0 l.

(** The fields of a block the Repairer does not write. *)
Definition kept (b : ScheduleBlock)
    : string * BlockType * option string * option Priority * option bool :=
  (b_title b, b_type b, description b, priority b, flexible b).

(** [handleBlockDelete] of [ModernPlannerInterface.tsx]. *)
Definition handleBlockDelete (blocks : list ScheduleBlock) (blockId : string)
    : list ScheduleBlock :=
  List.filter (fun block => negb (String.eqb (b_id block) blockId)) blocks.

(** [handleBlockReorder] of [ModernPlannerInterface.tsx].  An array entry
    is a block or [undefined]: [splice(fromIndex, 1)] removes nothing when
    [fromIndex] is past the end, and [movedBlock] is then [undefined], which
    the second [splice] inserts all the same.  Indices are taken from 0 up
    (the caller passes results of [findIndex] other than -1). *)
Definition handleBlockReorder (blocks : list ScheduleBlock)
    (fromIndex toIndex : nat) : list (option ScheduleBlock) :=
  let updatedBlocks := map Some blocks in
  let movedBlock :=
    match updatedBlocks !! fromIndex with
    | Some entry => entry
    | None => None
    end in
  let updatedBlocks := delete fromIndex updatedBlocks in
  take toIndex updatedBlocks ++ movedBlock :: drop toIndex updatedBlocks.

(** [saveEditing] of [ScheduleTimeline.tsx]: the form being edited, and
    what saving it does. *)
Record EditingBlock : Set := mkEditing {
  eb_id : string;
  eb_title : string;
  eb_startTime : string;
  eb_endTime : string;
  eb_type : BlockType
}.

Record SavedEdit : Set := mkSaved {
  se_title : string;
  se_startTime : string;
  se_endTime : string;
  se_duration : num;
  se_type : BlockType
}.

Inductive SaveOutcome : Set :=
| Alert (message : string)
| SaveUpdate (blockId : string) (updates : SavedEdit).

Definition saveEditing (editingBlock : option EditingBlock) : option SaveOutcome :=
  match editingBlock with
  | None => None
  | Some editing =>
      let startMinutes := timeToMinutes (eb_startTime editing) in
      let endMinutes := timeToMinutes (eb_endTime editing) in
      let duration := num_sub endMinutes startMinutes in
      if num_le duration (Int 0) then Some (Alert "End time must be after start time")
      else
        Some (SaveUpdate (eb_id editing)
                {| se_title := eb_title editing;
                   se_startTime := eb_startTime editing;
                   se_endTime := eb_endTime editing;
                   se_duration := duration;
                   se_type := eb_type editing |})
  end.

(** What the lane loops leave of an event: all but [lane] and
    [laneCount]. *)
Definition content (e : LayoutEvent)
    : string * string * num * num * BlockType * ScheduleBlock * float * float :=
  (ev_id e, ev_title e, ev_start e, ev_end e, ev_type e, originalBlock e,
   top e, height e).

Definition content_block
    (c : string * string * num * num * BlockType * ScheduleBlock * float * float)
    : ScheduleBlock :=
  snd (fst (fst c)).

(** No two events of the list overlap. *)
Fixpoint apartb (l : list LayoutEvent) : bool :=
  match l with
  | [] => true
  | x :: r => forallb (fun y => negb (overlapsEvent x y)) r && apartb r
  end.

(** The state of the lane loop after [n] events, whatever the times are:
    the groups hold the first [n] positions once each, and the members of
    a group carry the lanes 0, 1, 2, ... in the order they joined. *)
Record FillInv (n : nat) (st : LayoutState) : Prop :=
  mkFillInv {
    fill_cover : concat (groups st) ≡ₚ seq 0 n;
    fill_lanes :
      Forall (fun g => map lane (groupEvents (events st) g) = seq 0 (length g))
             (groups st)
  }.

Definition lanePair (e : LayoutEvent) : nat * nat := (lane e, laneCount e).

(** The exact value of a finite double. *)
Definition float_value (f : float) : option Q :=
  match Prim2SF f with
  | S754_zero _ => Some 0%Q
  | S754_finite sign m e =>
      Some ((if sign then (-1)%Q else 1%Q) * inject_Z (Z.pos m) * Qpower 2 e)%Q
  | _ => None
  end.

(** A finite double within [10^-12] of an integer number of pixels. *)
Definition pixel_near (f : float) (z : Z) : bool :=
  match float_value f with
  | Some q => Qle_bool (Qabs (q - inject_Z z)) (1 # 1000000000000)
  | None => false
  end.

Definition check_top : bool :=
  forallb (fun s => pixel_near (eventTop (Int s)) s) (range 1440).

Definition check_height : bool :=
  forallb (fun d =>
             pixel_near (eventHeight (Int 0) (Int d)) (Z.max 20 d)
             && match float_value (eventHeight (Int 0) (Int d)) with
                | Some h => Qle_bool 20 h
                | None => false
                end) (range 1440).

(** * Properties *)

(** ** Time utilities *)

Lemma minutesToTime_Int m :
  minutesToTime (Int m) = fmt (Z.rem (m / 60) 24) (Z.rem m 60).
Proof. reflexivity. Qed.

Lemma in_range n z : 0 <= z < Z.of_nat n -> In z (range n).
Proof.
  intros Hz. unfold range. apply in_map_iff. exists (Z.to_nat z).
  split; [lia | apply in_seq; lia].
Qed.

Lemma check_fmt_true : check_fmt = true.
Proof. vm_compute. reflexivity. Qed.

Lemma timeToMinutes_fmt h mi :
  0 <= h < 24 -> 0 <= mi < 60 ->
  timeToMinutes (fmt h mi) = Int (60 * h + mi) /\ wf_time (fmt h mi) = true.
Proof.
  intros Hh Hm. pose proof check_fmt_true as C. unfold check_fmt in C.
  rewrite forallb_forall in C. specialize (C h (in_range 24 h Hh)).
  rewrite forallb_forall in C. specialize (C mi (in_range 60 mi Hm)).
  destruct (timeToMinutes (fmt h mi)) as [|z]; [discriminate|].
  apply andb_prop in C as [C1 C2]. apply Z.eqb_eq in C1. subst z. auto.
Qed.

(** Printing minutes and reading them back gives the minute of the day. *)
Lemma timeToMinutes_minutesToTime m :
  0 <= m -> timeToMinutes (minutesToTime (Int m)) = Int (m mod 1440).
Proof.
  intros Hm. rewrite minutesToTime_Int.
  rewrite !Z.rem_mod_nonneg by (try apply Z.div_pos; lia).
  destruct (timeToMinutes_fmt ((m / 60) mod 24) (m mod 60)) as [-> _];
    try (apply Z.mod_pos_bound; lia).
  f_equal.
  pose proof (Z.div_mod m 60 ltac:(lia)) as E1.
  pose proof (Z.div_mod (m / 60) 24 ltac:(lia)) as E2.
  pose proof (Z.mod_pos_bound m 60 ltac:(lia)).
  pose proof (Z.mod_pos_bound (m / 60) 24 ltac:(lia)).
  apply (Z.mod_unique_pos _ _ (m / 60 / 24)); lia.
Qed.

Lemma minutesToTime_wf m : 0 <= m -> wf_time (minutesToTime (Int m)) = true.
Proof.
  intros Hm. rewrite minutesToTime_Int.
  rewrite !Z.rem_mod_nonneg by (try apply Z.div_pos; lia).
  apply timeToMinutes_fmt; apply Z.mod_pos_bound; lia.
Qed.

Lemma is_digit_in c : is_digit c = true -> In c digitChars.
Proof.
  unfold is_digit. intros H. apply andb_prop in H as [H1 H2].
  apply Nat.leb_le in H1, H2. unfold digitChars.
  apply in_map_iff. exists (nat_of_ascii c).
  split; [apply ascii_nat_embedding | apply in_seq; lia].
Qed.

Lemma check_wf_true : check_wf = true.
Proof. vm_compute. reflexivity. Qed.

Lemma wf_time_minutes t :
  wf_time t = true -> exists z, timeToMinutes t = Int z /\ 0 <= z < 1440.
Proof.
  intros W. pose proof W as W'. unfold wf_time in W.
  destruct t as [|a [|b [|c [|d [|e [|]]]]]]; try discriminate.
  do 6 (apply andb_prop in W as [W ?]).
  assert (c = ":"%char) as -> by (by apply Ascii.eqb_eq).
  pose proof check_wf_true as C. unfold check_wf in C.
  rewrite forallb_forall in C. specialize (C a (is_digit_in a W)).
  rewrite forallb_forall in C. specialize (C b (is_digit_in b ltac:(done))).
  rewrite forallb_forall in C. specialize (C d (is_digit_in d ltac:(done))).
  rewrite forallb_forall in C. specialize (C e (is_digit_in e ltac:(done))).
  cbv zeta in C. rewrite W' in C. simpl implb in C.
  destruct (timeToMinutes _) as [|z]; [discriminate|].
  exists z. split; [done|]. apply andb_prop in C as [C1 C2]. lia.
Qed.

Lemma split_no_colon t cur :
  has_colon t = false -> split_colon_aux t cur = [(cur ++ t)%string].
Proof.
  revert cur. induction t as [|c t IH]; intros cur H; simpl.
  - f_equal. induction cur; simpl; congruence.
  - unfold has_colon in H. simpl in H. apply orb_false_elim in H as [H1 H2].
    rewrite H1. rewrite IH by exact H2. f_equal.
    clear. induction cur; simpl; congruence.
Qed.

(** C8 (amended): on a well-formed [HH:MM] the result is an integer in
    [0, 1440); nothing is validated, and the only failure value is [NaN],
    returned for instance whenever the text has no colon. *)
Theorem timeToMinutes_contract :
  (forall t, wf_time t = true ->
     exists z, timeToMinutes t = Int z /\ 0 <= z < 1440) /\
  (forall t, has_colon t = false -> timeToMinutes t = NaN).
Proof.
  split; [exact wf_time_minutes|].
  intros t H. unfold timeToMinutes, split_colon.
  rewrite split_no_colon by exact H. simpl.
  destruct (num_mul _ _); reflexivity.
Qed.

Lemma timeToMinutes_contract_witness :
  wf_time "09:30" = true /\
  exists z, timeToMinutes "09:30" = Int z /\ 0 <= z < 1440.
Proof.
  split; [reflexivity | apply (proj1 timeToMinutes_contract); reflexivity].
Defined.

(** C8 as stated fails: ["25:99"] is malformed, and the result is the
    ordinary number 1599, outside [0, 1440). *)
Lemma timeToMinutes_malformed_ordinary :
  wf_time "25:99" = false /\ timeToMinutes "25:99" = Int 1599 /\ ~ (1599 < 1440).
Proof. split; [reflexivity | split; [reflexivity | lia]]. Qed.

(** ** Balance, score and suggestions *)

Lemma Qlt_b_true (a b : Q) : (a < b)%Q -> Qlt_b a b = true.
Proof.
  intros H. unfold Qlt_b. destruct (Qle_bool b a) eqn:E; [|reflexivity].
  apply Qle_bool_iff in E. exfalso. exact (Qlt_not_le _ _ H E).
Qed.

Lemma Qlt_b_false (a b : Q) : (b <= a)%Q -> Qlt_b a b = false.
Proof.
  intros H. unfold Qlt_b. apply Qle_bool_iff in H. rewrite H. reflexivity.
Qed.

(** C9: a schedule with 10 h of work, no exercise, 6 h of sleep and 1 h of
    personal time scores below 50, and its suggestions include reducing
    work hours, adding exercise and increasing sleep. *)
Theorem scenario_E_score_and_suggestions
    (blocks : list ScheduleBlock) (originalInput : string) :
  (workHours (calculateWorkLifeBalance blocks) == 10)%Q ->
  exerciseMinutes (calculateWorkLifeBalance blocks) = 0 ->
  (sleepHours (calculateWorkLifeBalance blocks) == 6)%Q ->
  (personalHours (calculateWorkLifeBalance blocks) == 1)%Q ->
  calculateOptimizationScore blocks < 50 /\
  In "Consider reducing work hours to improve work-life balance"
     (generateSmartSuggestions blocks originalInput) /\
  In "Add at least 30 minutes of daily exercise for better health"
     (generateSmartSuggestions blocks originalInput) /\
  In "Increase sleep duration to 7-9 hours for optimal recovery"
     (generateSmartSuggestions blocks originalInput).
Proof.
  intros Hw He Hs Hp.
  assert (W : Qlt_b 9 (workHours (calculateWorkLifeBalance blocks)) = true)
    by (apply Qlt_b_true; rewrite Hw; reflexivity).
  assert (S7 : Qlt_b (sleepHours (calculateWorkLifeBalance blocks)) 7 = true)
    by (apply Qlt_b_true; rewrite Hs; reflexivity).
  assert (P2 : Qlt_b (personalHours (calculateWorkLifeBalance blocks)) 2 = true)
    by (apply Qlt_b_true; rewrite Hp; reflexivity).
  split.
  - unfold calculateOptimizationScore. cbv zeta.
    rewrite W, S7, P2, He. change (0 <? 30) with true. simpl orb. cbv iota.
    repeat match goal with |- context [if ?c then _ else _] => destruct c end; lia.
  - unfold generateSmartSuggestions. cbv zeta.
    rewrite W, S7, P2, He. change (0 <? 30) with true.
    unfold push_if at 1 2 3 4. simpl.
    destruct (existsb _ _); simpl; auto 6.
Qed.

Lemma scenario_E_score_and_suggestions_witness :
  let day := [mkBlock "1" "Work" "08:00" "18:00" 600 work None None None;
              mkBlock "2" "Hobby" "18:00" "19:00" 60 personal None None None;
              mkBlock "3" "Sleep" "23:00" "05:00" 360 sleep None None None] in
  calculateOptimizationScore day < 50 /\
  In "Consider reducing work hours to improve work-life balance"
     (generateSmartSuggestions day "") /\
  In "Add at least 30 minutes of daily exercise for better health"
     (generateSmartSuggestions day "") /\
  In "Increase sleep duration to 7-9 hours for optimal recovery"
     (generateSmartSuggestions day "").
Proof.
  intros day. apply (scenario_E_score_and_suggestions day ""); reflexivity.
Defined.

(** ** Time analytics *)

Lemma analytics_fold_bounds (schedule : list ScheduleBlock) :
  forall (a : Analytics) (tot : Z),
    forallb (fun b => 0 <=? duration b) schedule = true ->
    (forall t, 0 <= a t <= tot) ->
    forall t, 0 <= fst (fold_left addToAnalytics schedule (a, tot)) t
              <= snd (fold_left addToAnalytics schedule (a, tot)).
Proof.
  induction schedule as [|b l IH]; intros a tot Hd Ha t; simpl; [apply Ha|].
  simpl in Hd. apply andb_prop in Hd as [Hb Hl]. apply Z.leb_le in Hb.
  apply IH; [exact Hl|]. intros t'. specialize (Ha t').
  destruct (type_eqb t' (b_type b)); lia.
Qed.

Lemma tallyAnalytics_bounds (schedule : list ScheduleBlock) :
  forallb (fun b => 0 <=? duration b) schedule = true ->
  forall t, 0 <= fst (tallyAnalytics schedule) t <= snd (tallyAnalytics schedule).
Proof.
  intros Hd. apply analytics_fold_bounds; [exact Hd|]. intros; simpl; lia.
Qed.

(** C10: when the durations add up to 0 (the empty list, for one), every
    percentage of the breakdown is 0, while the three balance percentages
    are [NaN]. *)
Theorem analytics_zero_total (schedule : list ScheduleBlock) :
  totalMinutes (generateTimeAnalytics schedule) = 0 ->
  (forall it, In it (breakdown (generateTimeAnalytics schedule)) ->
     percentage it = Fin 0) /\
  (forallb (fun b => 0 <=? duration b) schedule = true ->
   workPercentage (ta_workLifeBalance (generateTimeAnalytics schedule)) = FNaN /\
   personalPercentage (ta_workLifeBalance (generateTimeAnalytics schedule)) = FNaN /\
   sleepPercentage (ta_workLifeBalance (generateTimeAnalytics schedule)) = FNaN).
Proof.
  unfold generateTimeAnalytics.
  pose proof (tallyAnalytics_bounds schedule) as B.
  destruct (tallyAnalytics schedule) as [a tot].
  cbn [totalMinutes breakdown ta_workLifeBalance workPercentage
       personalPercentage sleepPercentage].
  intros ->. split.
  - intros it Hin. apply filter_In in Hin as [Hin _].
    apply in_map_iff in Hin as (t & <- & _). reflexivity.
  - intros Hd. cbn [fst snd] in B.
    assert (Z0 : forall t, a t = 0) by (intros t; specialize (B Hd t); lia).
    rewrite !Z0. auto.
Qed.

Lemma analytics_zero_total_witness :
  (forall it, In it (breakdown (generateTimeAnalytics [])) -> percentage it = Fin 0) /\
  (forallb (fun b => 0 <=? duration b) [] = true ->
   workPercentage (ta_workLifeBalance (generateTimeAnalytics [])) = FNaN /\
   personalPercentage (ta_workLifeBalance (generateTimeAnalytics [])) = FNaN /\
   sleepPercentage (ta_workLifeBalance (generateTimeAnalytics [])) = FNaN).
Proof. apply (analytics_zero_total []). reflexivity. Defined.

(** ** Stable sort *)

Section SortFacts.
Context {A : Type} (compareFn : A -> A -> num).

Lemma insert_sorted_perm a l : insert_sorted compareFn a l ≡ₚ a :: l.
  Proof.
    induction l as [|b l IH]; simpl; [done|].
    destruct (sorts_after compareFn a b); [|done].
    rewrite IH. apply perm_swap.
  Qed.

Lemma Array_sort_perm l : Array_sort compareFn l ≡ₚ l.
  Proof.
    induction l as [|a l IH]; simpl; [done|].
    rewrite insert_sorted_perm. by rewrite IH.
  Qed.


  (** With a comparator that decides a total preorder on the elements at
      hand, the result is in order. *)
Lemma Array_sort_ordered (P : A -> Prop) (le : A -> A -> Prop) :
    (forall x y, P x -> P y -> sorts_after compareFn x y = false -> le x y) ->
    (forall x y, P x -> P y -> sorts_after compareFn x y = true -> le y x) ->
    (forall x y z, le x y -> le y z -> le x z) ->
    forall l, Forall P l -> StronglySorted le (Array_sort compareFn l).
  Proof.
    intros Hle Hgt Htr l HP.
    induction HP as [|a l Pa Pl IH]; simpl; [constructor|].
    assert (Forall P (Array_sort compareFn l)) as PS
      by (by rewrite Array_sort_perm).
    revert IH PS. generalize (Array_sort compareFn l). clear l Pl.
    intros l HS. induction HS as [|b l HS IH Hb]; intros PS; simpl.
    - repeat constructor.
    - apply Forall_cons in PS as [Pb PS].
      destruct (sorts_after compareFn a b) eqn:E.
      + constructor; [by apply IH|].
        rewrite insert_sorted_perm. constructor; [by apply Hgt|done].
      + assert (le a b) by (by apply Hle).
        constructor; [by constructor|].
        constructor; [done|]. eapply Forall_impl; [exact Hb|]. eauto.
  Qed.
End SortFacts.

(** ** Block Repairer *)

Lemma compareByStart_minutes a b :
  compareByStart a b =
  num_sub (timeToMinutes (startTime a)) (timeToMinutes (startTime b)).
Proof. reflexivity. Qed.

Lemma fixBlocks_repaired l :
  forall index lastEndTime L,
    timeToMinutes lastEndTime = Int L -> 0 <= L ->
    forallb (fun b => parses (startTime b)) l = true ->
    repaired_from L (fixBlocks l index lastEndTime).
Proof.
  induction l as [|b l IH]; intros index lastEndTime L HL L0 Hp; simpl; [done|].
  simpl in Hp. apply andb_prop in Hp as [Hb Hl]. unfold parses in Hb.
  destruct (timeToMinutes (startTime b)) as [|s] eqn:Es; [discriminate|].
  rewrite HL. simpl num_lt.
  assert (exists A, timeToMinutes (if s <? L then lastEndTime else startTime b) = Int A
                    /\ L <= A) as (A & EA & LA).
  { destruct (s <? L) eqn:C; [exists L | exists s]; split; auto; lia. }
  rewrite EA. simpl num_add.
  assert (0 <= A + Z.max (duration b) 15) as Hnn by lia.
  exists A. repeat split; try lia; try done.
  - by apply timeToMinutes_minutesToTime.
  - apply IH; [by apply timeToMinutes_minutesToTime | | done].
    apply Z.mod_pos_bound. lia.
Qed.

Lemma repaired_from_consecutive l :
  forall prevEnd i b1 b2,
    repaired_from prevEnd l ->
    l !! i = Some b1 -> l !! S i = Some b2 ->
    num_le (timeToMinutes (endTime b1)) (timeToMinutes (startTime b2)) = true.
Proof.
  induction l as [|b l IH]; intros prevEnd i b1 b2 HR H1 H2; [done|].
  destruct HR as (A & EA & LA & Hd & EE & HR).
  destruct i as [|i].
  - simpl in H1, H2. injection H1 as <-.
    destruct l as [|b' l]; [done|]. simpl in H2. injection H2 as <-.
    destruct HR as (A' & EA' & LA' & _). rewrite EE, EA'. simpl.
    by apply Z.leb_le.
  - simpl in H1. by eapply IH.
Qed.

Lemma zero_parses : timeToMinutes "00:00" = Int 0.
Proof. reflexivity. Qed.

Lemma sorted_parses (bs : list ScheduleBlock) :
  forallb (fun b => parses (startTime b)) bs = true ->
  forallb (fun b => parses (startTime b)) (Array_sort compareByStart bs) = true.
Proof.
  rewrite !forallb_forall. intros H b Hb. apply H.
  apply list_elem_of_In. rewrite <- (Array_sort_perm compareByStart bs).
  by apply list_elem_of_In.
Qed.

(** While no block with a successor reaches midnight, every block of the
    swept list starts at or after [prevEnd]. *)
Lemma repaired_from_starts l :
  forall prevEnd,
    0 <= prevEnd ->
    repaired_from prevEnd l ->
    forallb ends_same_day (removelast l) = true ->
    Forall (fun b => exists A, timeToMinutes (startTime b) = Int A /\
                               prevEnd <= A /\ 15 <= duration b) l.
Proof.
  induction l as [|b l IH]; intros prevEnd H0 HR Hs; [constructor|].
  destruct HR as (A & EA & LA & Hd & EE & HR).
  constructor; [by exists A|].
  destruct l as [|b' l]; [constructor|].
  change (removelast (b :: b' :: l)) with (b :: removelast (b' :: l)) in Hs.
  simpl in Hs. apply andb_prop in Hs as [Hb Hs].
  unfold ends_same_day in Hb. rewrite EA in Hb. simpl in Hb. apply Z.ltb_lt in Hb.
  rewrite Z.mod_small in HR by lia.
  eapply Forall_impl; [apply (IH (A + duration b)); [lia|exact HR|exact Hs]|].
  intros x (B & EB & LB & Hx). exists B. repeat split; [done|lia|done].
Qed.

(** Then an earlier block is over, at its end time, when a later one
    starts. *)
Lemma repaired_from_pairs l :
  forall prevEnd,
    0 <= prevEnd ->
    repaired_from prevEnd l ->
    forallb ends_same_day (removelast l) = true ->
    forall i j bi bj,
      (i < j)%nat -> l !! i = Some bi -> l !! j = Some bj ->
      exists A B,
        timeToMinutes (startTime bi) = Int A /\
        timeToMinutes (endTime bi) = Int (A + duration bi) /\
        timeToMinutes (startTime bj) = Int B /\
        A + duration bi <= B /\ 15 <= duration bi /\ 15 <= duration bj.
Proof.
  induction l as [|b l IH]; intros prevEnd H0 HR Hs i j bi bj Hij Hi Hj; [done|].
  destruct HR as (A & EA & LA & Hd & EE & HR).
  destruct j as [|j]; [lia|]. simpl in Hj.
  destruct l as [|b' l]; [done|].
  change (removelast (b :: b' :: l)) with (b :: removelast (b' :: l)) in Hs.
  simpl in Hs. apply andb_prop in Hs as [Hb Hs].
  unfold ends_same_day in Hb. rewrite EA in Hb. simpl in Hb. apply Z.ltb_lt in Hb.
  rewrite Z.mod_small in EE, HR by lia.
  destruct i as [|i].
  - simpl in Hi. injection Hi as <-.
    pose proof (repaired_from_starts _ (A + duration b) ltac:(lia) HR Hs) as HF.
    rewrite Forall_forall in HF.
    destruct (HF bj (list_elem_of_lookup_2 _ _ _ Hj)) as (B & EB & LB & Hdj).
    exists A, B. by repeat split.
  - simpl in Hi. apply (IH (A + duration b) ltac:(lia) HR Hs i j); [lia|done..].
Qed.

(** C2 (amended): in the Repairer's output every block starts, in minutes
    of the day, no earlier than the block before it ends.  This makes the
    output free of overlaps when no block with a successor reaches
    midnight: then every earlier block is over when a later one starts. *)
Theorem repair_no_residual_overlap
    (schedule : DailySchedule) (originalInput : string) :
  forallb (fun b => parses (startTime b)) (blocks schedule) = true ->
  (forall i b1 b2,
     blocks (validateAndFixSchedule schedule originalInput) !! i = Some b1 ->
     blocks (validateAndFixSchedule schedule originalInput) !! S i = Some b2 ->
     num_le (timeToMinutes (endTime b1)) (timeToMinutes (startTime b2)) = true) /\
  (forallb ends_same_day
     (removelast (blocks (validateAndFixSchedule schedule originalInput))) = true ->
   forall i j bi bj,
     (i < j)%nat ->
     blocks (validateAndFixSchedule schedule originalInput) !! i = Some bi ->
     blocks (validateAndFixSchedule schedule originalInput) !! j = Some bj ->
     num_le (timeToMinutes (endTime bi)) (timeToMinutes (startTime bj)) = true /\
     blocksOverlap bi bj = false).
Proof.
  intros Hp.
  assert (repaired_from 0
            (blocks (validateAndFixSchedule schedule originalInput))) as HR
    by (apply fixBlocks_repaired;
        [apply zero_parses | lia | by apply sorted_parses]).
  split.
  - intros i b1 b2. by apply (repaired_from_consecutive _ 0).
  - intros Hs i j bi bj Hij Hi Hj.
    destruct (repaired_from_pairs _ 0 ltac:(lia) HR Hs i j bi bj Hij Hi Hj)
      as (A & B & EA & EE & EB & Hle & Hdi & Hdj).
    unfold blocksOverlap. rewrite EE, EA, EB. simpl.
    split; [by apply Z.leb_le|].
    apply andb_false_iff. right. apply Z.ltb_ge. lia.
Qed.

Lemma repair_no_residual_overlap_witness :
  forallb (fun b => parses (startTime b)) (blocks (mkDay workAndSleep)) = true /\
  forallb ends_same_day
    (removelast (blocks (validateAndFixSchedule (mkDay workAndSleep) ""))) = true /\
  num_le (timeToMinutes (endTime (mkBlock "1" "Work" "09:00" "17:00" 480 work None None None)))
         (timeToMinutes (startTime (mkBlock "2" "Sleep" "23:00" "07:00" 480 sleep None None None)))
  = true /\
  blocksOverlap (mkBlock "1" "Work" "09:00" "17:00" 480 work None None None)
                (mkBlock "2" "Sleep" "23:00" "07:00" 480 sleep None None None)
  = false.
Proof.
  split; [reflexivity|]. split; [reflexivity|].
  apply (proj2 (repair_no_residual_overlap (mkDay workAndSleep) "" eq_refl)
               eq_refl 0%nat 1%nat); [lia|reflexivity..].
Defined.

(** C2 as stated fails: the comparison is on minutes of the day, and a
    block that runs past midnight ends, on that face, before the next one
    starts.  Of two candidates at 23:30 and 23:45 the second is not moved
    and lies inside the first; and behind a block that was pushed past
    midnight a later block keeps a start inside an earlier one. *)
Lemma repair_leaves_overlap :
  blocks (validateAndFixSchedule (mkDay acrossMidnight) "")
  = [mkBlock "1" "Film" "23:30" "00:30" 60 personal None None None;
     mkBlock "2" "Call" "23:45" "00:15" 30 personal None None None] /\
  num_le (timeToMinutes "00:30") (timeToMinutes "23:45") = true /\
  blocksOverlap (mkBlock "1" "Film" "23:30" "00:30" 60 personal None None None)
                (mkBlock "2" "Call" "23:45" "00:15" 30 personal None None None)
  = true /\
  blocks (validateAndFixSchedule (mkDay lateEvening) "")
  = [mkBlock "1" "Film" "21:00" "23:00" 120 personal None None None;
     mkBlock "2" "Sleep" "23:00" "07:00" 480 sleep None None None;
     mkBlock "3" "Reading" "22:30" "23:00" 30 personal None None None] /\
  blocksOverlap (mkBlock "1" "Film" "21:00" "23:00" 120 personal None None None)
                (mkBlock "3" "Reading" "22:30" "23:00" 30 personal None None None)
  = true.
Proof. repeat split. Qed.





(** The Repairer leaves every block shorter than a day with
    [duration == (endTime - startTime) mod 1440]. *)
Lemma repaired_duration_invariant l :
  forall prevEnd,
    repaired_from prevEnd l ->
    Forall (fun b => duration b < 1440 -> duration_invariant b = true) l.
Proof.
  induction l as [|b l IH]; intros prevEnd HR; constructor.
  - destruct HR as (A & EA & LA & Hd & EE & _). intros Hlt.
    unfold duration_invariant. rewrite EE, EA. simpl. apply Z.eqb_eq.
    rewrite Zminus_mod_idemp_l.
    replace (A + duration b - A) with (duration b) by lia.
    symmetry. apply Z.mod_small. lia.
  - destruct HR as (A & _ & _ & _ & _ & HR). by eapply IH.
Qed.

Lemma repair_keeps_duration_invariant
    (schedule : DailySchedule) (originalInput : string) :
  forallb (fun b => parses (startTime b)) (blocks schedule) = true ->
  Forall (fun b => duration b < 1440 -> duration_invariant b = true)
    (blocks (validateAndFixSchedule schedule originalInput)).
Proof.
  intros Hp. apply (repaired_duration_invariant _ 0).
  apply fixBlocks_repaired; [apply zero_parses | lia | by apply sorted_parses].
Qed.


(** C5: of two candidates that both start at 10:00, lasting 60 and 30
    minutes, the first keeps 10:00 to 11:00 and the second is moved to
    start at 11:00. *)
Theorem repair_tie_keeps_first
    (schedule : DailySchedule) (originalInput : string) (b1 b2 : ScheduleBlock) :
  blocks schedule = [b1; b2] ->
  startTime b1 = "10:00" -> duration b1 = 60 ->
  startTime b2 = "10:00" -> duration b2 = 30 ->
  blocks (validateAndFixSchedule schedule originalInput)
  = [mkBlock "1" (b_title b1) "10:00" "11:00" 60 (b_type b1)
       (description b1) (priority b1) (flexible b1);
     mkBlock "2" (b_title b2) "11:00" "11:30" 30 (b_type b2)
       (description b2) (priority b2) (flexible b2)].
Proof.
  intros Hb S1 D1 S2 D2. cbn [validateAndFixSchedule blocks]. rewrite Hb.
  assert (Array_sort compareByStart [b1; b2] = [b1; b2]) as ->.
  { cbn [Array_sort foldr insert_sorted]. unfold sorts_after.
    rewrite compareByStart_minutes, S1, S2. reflexivity. }
  cbn [fixBlocks]. rewrite S1, D1. simpl. rewrite S2, D2. reflexivity.
Qed.

Lemma repair_tie_keeps_first_witness :
  blocks (validateAndFixSchedule
            (mkDay [mkBlock "x" "Review" "10:00" "11:00" 60 work None None None;
                    mkBlock "y" "Coffee" "10:00" "10:30" 30 break None None None])
            "")
  = [mkBlock "1" "Review" "10:00" "11:00" 60 work None None None;
     mkBlock "2" "Coffee" "11:00" "11:30" 30 break None None None].
Proof.
  apply (repair_tie_keeps_first
           (mkDay [mkBlock "x" "Review" "10:00" "11:00" 60 work None None None;
                   mkBlock "y" "Coffee" "10:00" "10:30" 30 break None None None])
           "" _ _ eq_refl); reflexivity.
Defined.

(** ** Interactive Editor *)

(** C1 fails on resizing: the handler writes [endTime] alone, so a block
    of 09:00 to 10:00 with duration 60, resized by 30 pixels, ends at 10:30
    with its duration still 60. *)
Lemma resize_leaves_duration_stale :
  duration_invariant meeting = true /\
  exists st,
    handleResizeMouseDown [meeting] 0 0 "1" = Some st /\
    applyAction [meeting] (resizeMouseMove true st 30)
    = [mkBlock "1" "Meeting" "09:00" "10:30" 60 work None None None] /\
    duration_invariant
      (mkBlock "1" "Meeting" "09:00" "10:30" 60 work None None None) = false.
Proof.
  split; [reflexivity|]. eexists. split; [reflexivity|].
  split; reflexivity.
Qed.

(** C7 fails on what the browser sends: the handler looks at [key] only,
    never at [shiftKey], so Shift with the Up arrow runs the plain move and
    changes [startTime]. *)
Lemma shift_arrow_moves_block :
  (forall blocks k sh blockId,
     handleKeyDown blocks (mkKey k sh) blockId
     = handleKeyDown blocks (mkKey k false) blockId) /\
  handleKeyDown [meeting] shiftArrowUp "1"
  = Some (OnBlockUpdate "1" (updateTimes "08:45" "09:45")) /\
  applyAction [meeting] (handleKeyDown [meeting] shiftArrowUp "1")
  = [mkBlock "1" "Meeting" "08:45" "09:45" 60 work None None None].
Proof. split; [reflexivity | split; reflexivity]. Qed.

(** [Math.round] returns the nearest integer. *)
Lemma Math_round_nearest q :
  (inject_Z (Math_round q) - (1 # 2) <= q /\
   q < inject_Z (Math_round q) + (1 # 2))%Q.
Proof.
  unfold Math_round. pose proof (Qfloor_le (q + (1 # 2))) as H1.
  pose proof (Qlt_floor (q + (1 # 2))) as H2.
  rewrite inject_Z_plus in H2. change (inject_Z 1) with 1%Q in H2.
  split; lra.
Qed.

Ltac inject_consts :=
  unfold Z.sub; rewrite ?inject_Z_plus, ?inject_Z_mult, ?inject_Z_opp;
  change (inject_Z 10) with 10%Q; change (inject_Z 5) with 5%Q;
  change (inject_Z 2) with 2%Q; change (inject_Z 14) with 14%Q.

Lemma Math_round_fifth (z : Z) :
  Math_round (inject_Z z / SNAP_MINUTES) = (2 * z + 5) / 10.
Proof.
  unfold Math_round, SNAP_MINUTES, Qdiv, Qmult, Qplus, Qinv, inject_Z, Qfloor.
  simpl. f_equal. lia.
Qed.

Lemma snapToGrid_Int (z : Z) :
  snapToGrid (num_to_q (Int z)) = Int ((2 * z + 5) / 10 * 5).
Proof. unfold snapToGrid, num_to_q. by rewrite Math_round_fifth. Qed.

Lemma snap_integer (z : Z) :
  z - 2 <= (2 * z + 5) / 10 * 5 <= z + 2 /\
  ((2 * z + 5) / 10 * 5) mod 5 = 0 /\
  (z mod 5 = 0 -> (2 * z + 5) / 10 * 5 = z).
Proof.
  pose proof (Z.div_mod (2 * z + 5) 10 ltac:(lia)) as E.
  pose proof (Z.mod_pos_bound (2 * z + 5) 10 ltac:(lia)) as B.
  split; [lia|]. split; [apply Z.mod_mul; lia|].
  intros H. pose proof (Z.div_mod z 5 ltac:(lia)). lia.
Qed.

(** Equal candidates snap alike. *)
Lemma snapToGrid_eq (q q' : Q) :
  (q == q')%Q -> snapToGrid (QNum q) = snapToGrid (QNum q').
Proof.
  intros E. unfold snapToGrid, Math_round. f_equal. f_equal.
  apply Qfloor_comp. by rewrite E.
Qed.

(** A pointer delta of [d] whole pixels is a delta of [d] minutes, and the
    candidate [s + d] snaps to the nearest multiple of 5. *)
Lemma snapToGrid_pixels (s d : Z) :
  snapToGrid (QNum (inject_Z s + inject_Z d / inject_Z HOUR_HEIGHT * 60))
  = Int ((2 * (s + d) + 5) / 10 * 5).
Proof.
  rewrite <- snapToGrid_Int. unfold num_to_q. apply snapToGrid_eq.
  rewrite inject_Z_plus. unfold HOUR_HEIGHT. change (inject_Z 60) with 60%Q.
  field.
Qed.

(** Around an integer candidate, an error of less than half a minute does
    not change the mark: the rounding error of the source's double
    arithmetic cannot show in the snapped time. *)
Lemma snapToGrid_near_integer (c : Z) (q : Q) :
  (inject_Z c - (1 # 2) < q)%Q -> (q < inject_Z c + (1 # 2))%Q ->
  snapToGrid (QNum q) = snapToGrid (num_to_q (Int c)).
Proof.
  intros L U. rewrite snapToGrid_Int. unfold snapToGrid. f_equal. f_equal.
  destruct (Math_round_nearest (q / SNAP_MINUTES)) as [Lr Ur].
  set (r := Math_round _) in *.
  unfold SNAP_MINUTES, Qdiv in Lr, Ur. change (/ 5)%Q with (1 # 5)%Q in Lr, Ur.
  assert (L' : (inject_Z (10 * r) < inject_Z (2 * c + 6))%Q)
    by (rewrite ?inject_Z_plus, ?inject_Z_mult;
        change (inject_Z 10) with 10%Q; change (inject_Z 6) with 6%Q;
        change (inject_Z 2) with 2%Q; lra).
  assert (U' : (inject_Z (2 * c) < inject_Z (10 * r + 6))%Q)
    by (rewrite ?inject_Z_plus, ?inject_Z_mult;
        change (inject_Z 10) with 10%Q; change (inject_Z 6) with 6%Q;
        change (inject_Z 2) with 2%Q; lra).
  rewrite <- Zlt_Qlt in L', U'.
  apply (Z.div_unique _ _ _ (2 * c + 5 - 10 * r)); lia.
Qed.

(** From a start on the grid, a candidate 7 minutes later snaps to the
    mark 5 minutes later. *)
Lemma snap_seven_from_grid (s : Z) :
  s mod 5 = 0 -> (2 * (s + 7) + 5) / 10 * 5 = s + 5.
Proof.
  intros Hs. pose proof (Z.div_mod s 5 ltac:(lia)) as E.
  symmetry. rewrite Z.mul_comm.
  replace (2 * (s + 7) + 5) with (10 * (s / 5 + 1) + 9) by lia.
  rewrite (Z.mul_comm 10), Z.div_add_l by lia. change (9 / 10) with 0. lia.
Qed.

Lemma handleMouseDown_state blocks y0 blockId st :
  handleMouseDown blocks 0 y0 blockId = Some st ->
  dragBlockId st = blockId /\ dragStartY st = y0 /\
  dragOriginalStartTime st = timeToMinutes (startTime (dragBlock st)) /\
  findBlock blocks blockId = Some (dragBlock st).
Proof.
  unfold handleMouseDown. simpl.
  destruct (findBlock blocks blockId) as [b|]; [|discriminate].
  intros [= <-]. auto.
Qed.

(** What a pointer move writes back for a block that starts at minute [s]
    and ends at minute [e]. *)
Lemma dragMouseMove_eval
    (blocks : list ScheduleBlock) (blockId : string) (y0 y : Z)
    (st : DragState) (s e : Z) :
  handleMouseDown blocks 0 y0 blockId = Some st ->
  timeToMinutes (startTime (dragBlock st)) = Int s ->
  timeToMinutes (endTime (dragBlock st)) = Int e ->
  dragMouseMove true st y
  = Some (OnBlockUpdate blockId
            (updateTimes
               (minutesToTime
                  (Int (Z.max 0
                          (Z.min (1440 - (e - s))
                                 ((2 * (s + (y - y0)) + 5) / 10 * 5)))))
               (minutesToTime
                  (Int (Z.max 0
                          (Z.min (1440 - (e - s))
                                 ((2 * (s + (y - y0)) + 5) / 10 * 5))
                        + (e - s)))))).
Proof.
  intros Hd Es Ee. apply handleMouseDown_state in Hd as (Hid & Hy & Ho & _).
  unfold dragMouseMove. cbn [negb]. rewrite Ho, Hy, Hid, Es, Ee.
  cbn [num_to_q qnum_add num_sub]. rewrite snapToGrid_pixels. reflexivity.
Qed.

(** A drag keeps the duration invariant of a block that lies within one
    day. *)
Lemma drag_keeps_duration_invariant
    (blocks : list ScheduleBlock) (blockId : string) (y0 y : Z)
    (st : DragState) (s e : Z) (updates : BlockUpdates) :
  handleMouseDown blocks 0 y0 blockId = Some st ->
  timeToMinutes (startTime (dragBlock st)) = Int s ->
  timeToMinutes (endTime (dragBlock st)) = Int e ->
  0 <= s -> s <= e -> e < 1440 ->
  duration_invariant (dragBlock st) = true ->
  dragMouseMove true st y = Some (OnBlockUpdate blockId updates) ->
  duration_invariant (mergeUpdates (dragBlock st) updates) = true.
Proof.
  intros Hd Es Ee H0 Hse He Hinv Hmove.
  rewrite (dragMouseMove_eval blocks blockId y0 y st s e Hd Es Ee) in Hmove.
  injection Hmove as <-.
  unfold duration_invariant in *. rewrite Es, Ee in Hinv. simpl in Hinv.
  apply Z.eqb_eq in Hinv. rewrite Z.mod_small in Hinv by lia.
  cbn [mergeUpdates updateTimes startTime endTime duration default from_option
       u_startTime u_endTime u_duration id].
  set (snapped := (2 * (s + (y - y0)) + 5) / 10 * 5).
  set (c := Z.max 0 (Z.min (1440 - (e - s)) snapped)).
  rewrite !timeToMinutes_minutesToTime by lia. simpl. apply Z.eqb_eq.
  rewrite Zminus_mod_idemp_l, Zminus_mod_idemp_r.
  replace (c + (e - s) - c) with (e - s) by lia.
  rewrite Z.mod_small by lia. exact Hinv.
Qed.

(** C6 (amended): a pointer delta of [y - y0] whole pixels is a delta of
    as many minutes.  While a block that starts at minute [s] and ends at
    minute [e] of the same day is dragged, every pointer move writes back
    the snapped candidate start, the multiple of 5 nearest to
    [s + (y - y0)], clamped to [0, 1440 - (e - s)], and an end [e - s]
    minutes later on the 24-hour face, so that the length [e - s] is kept;
    the stored duration is not written.  The snap applies to the start
    time: from a start on the grid and away from the bounds, a pointer
    delta of 7 minutes moves the block by 5. *)
Theorem drag_move_postcondition
    (blocks : list ScheduleBlock) (blockId : string) (y0 y : Z)
    (st : DragState) (s e : Z) :
  handleMouseDown blocks 0 y0 blockId = Some st ->
  timeToMinutes (startTime (dragBlock st)) = Int s ->
  timeToMinutes (endTime (dragBlock st)) = Int e ->
  0 <= s -> s <= e -> e < 1440 ->
  exists snapped c,
    snapToGrid (num_to_q (Int (s + (y - y0)))) = Int snapped /\
    snapped mod 5 = 0 /\
    s + (y - y0) - 2 <= snapped <= s + (y - y0) + 2 /\
    c = Z.max 0 (Z.min (1440 - (e - s)) snapped) /\
    0 <= c <= 1440 - (e - s) /\
    dragMouseMove true st y
    = Some (OnBlockUpdate blockId
              (updateTimes (minutesToTime (Int c))
                           (minutesToTime (Int (c + (e - s)))))) /\
    timeToMinutes (minutesToTime (Int c)) = Int (c mod 1440) /\
    timeToMinutes (minutesToTime (Int (c + (e - s)))) = Int ((c + (e - s)) mod 1440) /\
    ((c + (e - s)) mod 1440 - c mod 1440) mod 1440 = e - s /\
    (s mod 5 = 0 -> y - y0 = 7 -> s + 5 <= 1440 - (e - s) -> c = s + 5).
Proof.
  intros Hd Es Ee H0 Hse He.
  pose proof (dragMouseMove_eval blocks blockId y0 y st s e Hd Es Ee) as Hmove.
  destruct (snap_integer (s + (y - y0))) as (Hnear & Hgrid & _).
  set (snapped := (2 * (s + (y - y0)) + 5) / 10 * 5) in *.
  set (c := Z.max 0 (Z.min (1440 - (e - s)) snapped)) in *.
  exists snapped, c.
  assert (0 <= c <= 1440 - (e - s)) as Hc by lia.
  split; [apply snapToGrid_Int|]. split; [exact Hgrid|].
  split; [exact Hnear|].
  split; [reflexivity|]. split; [exact Hc|].
  split; [exact Hmove|].
  split; [apply timeToMinutes_minutesToTime; lia|].
  split; [apply timeToMinutes_minutesToTime; lia|].
  split.
  { rewrite Zminus_mod_idemp_l, Zminus_mod_idemp_r.
    replace (c + (e - s) - c) with (e - s) by lia. apply Z.mod_small. lia. }
  intros Hg H7 Hfit.
  pose proof (snap_seven_from_grid s Hg) as E.
  unfold c, snapped. rewrite H7, E. lia.
Qed.

Lemma drag_move_postcondition_witness :
  exists snapped c,
    snapToGrid (num_to_q (Int (540 + (107 - 100)))) = Int snapped /\
    snapped mod 5 = 0 /\
    540 + (107 - 100) - 2 <= snapped <= 540 + (107 - 100) + 2 /\
    c = Z.max 0 (Z.min (1440 - (600 - 540)) snapped) /\
    0 <= c <= 1440 - (600 - 540) /\
    dragMouseMove true (mkDrag "1" meeting 100 (Int 540)) 107
    = Some (OnBlockUpdate "1"
              (updateTimes (minutesToTime (Int c))
                           (minutesToTime (Int (c + (600 - 540)))))) /\
    timeToMinutes (minutesToTime (Int c)) = Int (c mod 1440) /\
    timeToMinutes (minutesToTime (Int (c + (600 - 540))))
    = Int ((c + (600 - 540)) mod 1440) /\
    ((c + (600 - 540)) mod 1440 - c mod 1440) mod 1440 = 600 - 540 /\
    (540 mod 5 = 0 -> 107 - 100 = 7 -> 540 + 5 <= 1440 - (600 - 540) ->
     c = 540 + 5).
Proof.
  apply (drag_move_postcondition [meeting] "1" 100 107
           (mkDrag "1" meeting 100 (Int 540)) 540 600);
    first [reflexivity | lia].
Defined.

(** C6 as stated fails: dragged from 09:03 by a pointer delta of 7
    minutes, the block lands on 09:10, that is 7 minutes later. *)
Lemma drag_seven_off_grid :
  exists st,
    handleMouseDown [offGrid] 0 100 "1" = Some st /\
    dragMouseMove true st 107
    = Some (OnBlockUpdate "1" (updateTimes "09:10" "09:55")) /\
    num_sub (timeToMinutes "09:10") (timeToMinutes (startTime offGrid)) = Int 7.
Proof. eexists. split; [reflexivity | split; reflexivity]. Qed.

(** ** Layout Engine *)

Lemma lookup_map {A B} (f : A -> B) (l : list A) i :
  map f l !! i = f <$> l !! i.
Proof. revert i. induction l as [|a l IH]; intros [|i]; simpl; auto. Qed.

Lemma map_alter_same {A B} (f : A -> B) (g : A -> A) i (l : list A) :
  (forall x, f (g x) = f x) -> map f (alter g i l) = map f l.
Proof.
  intros H. revert i. induction l as [|a l IH]; intros [|i]; simpl; auto.
  - by rewrite H.
  - f_equal. apply IH.
Qed.

Lemma toLayoutEvent_timed b : parsesBoth b = true -> timed (toLayoutEvent b).
Proof.
  unfold parsesBoth, parses. intros H. apply andb_prop in H as [Hs He].
  unfold timed, toLayoutEvent. cbn [ev_start ev_end].
  destruct (timeToMinutes (startTime b)) as [|s]; [discriminate|].
  destruct (timeToMinutes (endTime b)) as [|e]; [discriminate|].
  simpl. destruct (e <? s) eqn:C1; simpl.
  - destruct (e + 1440 - s <? 5) eqn:C2; eexists _, _; repeat split; lia.
  - destruct (e - s <? 5) eqn:C2; eexists _, _; repeat split; lia.
Qed.

Lemma overlapsEvent_sym x y : overlapsEvent x y = overlapsEvent y x.
Proof. unfold overlapsEvent, num_ge. by rewrite orb_comm. Qed.

Lemma overlapsEvent_interval x x' y y' :
  interval x = interval x' -> interval y = interval y' ->
  overlapsEvent x y = overlapsEvent x' y'.
Proof. unfold interval, overlapsEvent. by intros [= -> ->] [= -> ->]. Qed.

(** The sorted array of events is in start order. *)
Lemma sorted_events_ordered (l : list LayoutEvent) :
  Forall timed l ->
  StronglySorted starts_before (Array_sort compareEvents l).
Proof.
  apply (Array_sort_ordered compareEvents timed starts_before).
  - intros x y (s & e & Sx & Ex & Hx) (s' & e' & Sy & Ey & Hy).
    unfold sorts_after, compareEvents, starts_before. rewrite Sx, Sy, Ex, Ey.
    simpl. destruct (s =? s') eqn:C; simpl; intros H; lia.
  - intros x y (s & e & Sx & Ex & Hx) (s' & e' & Sy & Ey & Hy).
    unfold sorts_after, compareEvents, starts_before. rewrite Sx, Sy, Ex, Ey.
    simpl. destruct (s =? s') eqn:C; simpl; intros H; lia.
  - intros x y z. unfold starts_before.
    destruct (ev_start x), (ev_start y), (ev_start z); simpl; try done. lia.
Qed.

Lemma StronglySorted_lookup_le {A} (R : A -> A -> Prop) (l : list A) :
  StronglySorted R l ->
  forall i j x y, (i < j)%nat -> l !! i = Some x -> l !! j = Some y -> R x y.
Proof.
  induction 1 as [|a l HS IH Ha]; intros i j x y Hij Hi Hj; [done|].
  destruct j as [|j]; [lia|]. simpl in Hj. destruct i as [|i].
  - simpl in Hi. injection Hi as <-. rewrite Forall_forall in Ha. apply Ha.
    apply list_elem_of_lookup. eauto.
  - simpl in Hi. apply (IH i j); [lia|done..].
Qed.



Lemma findGroup_skip store event gs rest :
  forall k,
    Forall (fun g => overlapsGroup store event g = false) gs ->
    findGroup store event (gs ++ rest) k
    = findGroup store event rest (k + length gs).
Proof.
  induction gs as [|g gs IH]; intros k H; simpl.
  - f_equal. lia.
  - apply Forall_cons in H as [Hg H]. rewrite Hg, IH by done. f_equal. lia.
Qed.


Lemma lookup_same_map {A B} (f : A -> B) (l l' : list A) i x :
  map f l = map f l' -> l !! i = Some x ->
  exists x', l' !! i = Some x' /\ f x = f x'.
Proof.
  intros H Hi. assert (map f l !! i = Some (f x)) as E by (by rewrite lookup_map, Hi).
  rewrite H, lookup_map in E. destruct (l' !! i) as [x'|]; [|done].
  injection E as E. eauto.
Qed.



Section LayoutLoop.
Variable evs0 : list LayoutEvent.
Hypothesis Htimed : Forall timed evs0.
Hypothesis Hordered : StronglySorted starts_before evs0.






End LayoutLoop.


(** The closing loop writes [laneCount] only. *)
Lemma assignLaneCount_placed store g :
  map placed (assignLaneCount store g) = map placed store.
Proof.
  unfold assignLaneCount. generalize (maxLane store g + 1)%nat as c. intros c.
  revert store. induction g as [|i g IH]; intros store; simpl; [done|].
  rewrite IH. by apply map_alter_same.
Qed.

Lemma assignLaneCounts_placed gs :
  forall store, map placed (fold_left assignLaneCount gs store) = map placed store.
Proof.
  induction gs as [|g gs IH]; intros store; simpl; [done|].
  by rewrite IH, assignLaneCount_placed.
Qed.

Lemma placed_lane (l l' : list LayoutEvent) :
  map placed l = map placed l' -> map lane l = map lane l'.
Proof.
  intros H. apply (f_equal (map fst)) in H. by rewrite !map_map in H.
Qed.

Lemma placed_interval (l l' : list LayoutEvent) :
  map placed l = map placed l' -> map interval l = map interval l'.
Proof.
  intros H. apply (f_equal (map snd)) in H. by rewrite !map_map in H.
Qed.

Lemma groupEvents_lanes (l l' : list LayoutEvent) g :
  map lane l = map lane l' ->
  map lane (groupEvents l g) = map lane (groupEvents l' g).
Proof.
  intros H. induction g as [|i g IH]; [done|].
  unfold groupEvents in *. simpl.
  assert (lane <$> l !! i = lane <$> l' !! i) as E
    by (by rewrite <- !lookup_map, H).
  destruct (l !! i) as [x|], (l' !! i) as [x'|]; simpl in *; try done.
  injection E as E. by f_equal.
Qed.

Lemma maxLane_lanes (l l' : list LayoutEvent) g :
  map lane l = map lane l' -> maxLane l g = maxLane l' g.
Proof. intros H. unfold maxLane. by rewrite (groupEvents_lanes l l' g H). Qed.

Lemma assignLaneCount_outside store g i :
  i ∉ g -> assignLaneCount store g !! i = store !! i.
Proof.
  unfold assignLaneCount. generalize (maxLane store g + 1)%nat as c. intros c.
  revert store. induction g as [|k g IH]; intros store Hni; cbn [fold_left]; [done|].
  apply not_elem_of_cons in Hni as [Hne Hni].
  rewrite IH by done. by rewrite list_lookup_alter_ne.
Qed.

Lemma assignLaneCount_inside store g i e :
  i ∈ g -> assignLaneCount store g !! i = Some e ->
  laneCount e = (maxLane store g + 1)%nat.
Proof.
  unfold assignLaneCount. generalize (maxLane store g + 1)%nat as c. intros c.
  revert store. induction g as [|k g IH]; intros store Hin He; cbn [fold_left] in He.
  - by apply elem_of_nil in Hin.
  - destruct (decide (i ∈ g)) as [Hg|Hg]; [by eapply IH|].
    apply elem_of_cons in Hin as [->|Hin]; [|done].
    assert (fold_left (fun s i0 => alter (setLaneCount c) i0 s) g
              (alter (setLaneCount c) k store) !! k
            = alter (setLaneCount c) k store !! k) as E.
    { clear He IH. generalize (alter (setLaneCount c) k store) as s0.
      induction g as [|j g IHg]; intros s0; cbn [fold_left]; [done|].
      apply not_elem_of_cons in Hg as [Hne Hg].
      rewrite IHg by done. by rewrite list_lookup_alter_ne. }
    rewrite E, list_lookup_alter_eq in He.
    destruct (store !! k); [|done]. by injection He as <-.
Qed.

Lemma assignLaneCounts_outside gs :
  forall store i,
    i ∉ concat gs -> fold_left assignLaneCount gs store !! i = store !! i.
Proof.
  induction gs as [|g gs IH]; intros store i Hni; simpl; [done|].
  simpl in Hni. apply not_elem_of_app in Hni as [Hg Hgs].
  rewrite IH by done. by apply assignLaneCount_outside.
Qed.

Lemma assignLaneCounts_inside gs :
  forall store g i e,
    NoDup (concat gs) -> g ∈ gs -> i ∈ g ->
    fold_left assignLaneCount gs store !! i = Some e ->
    laneCount e = (maxLane store g + 1)%nat.
Proof.
  induction gs as [|g0 gs IH]; intros store g i e Hnd Hg Hi He.
  - by apply elem_of_nil in Hg.
  - simpl in Hnd, He. apply NoDup_app in Hnd as (_ & Hdisj & Hnd).
    destruct (decide (i ∈ concat gs)) as [Hic|Hic].
    + apply elem_of_cons in Hg as [->|Hg]; [exfalso; by apply (Hdisj i)|].
      rewrite (IH _ g i e Hnd Hg Hi He). f_equal.
      apply maxLane_lanes, placed_lane, assignLaneCount_placed.
    + rewrite assignLaneCounts_outside in He by done.
      apply elem_of_cons in Hg as [->|Hg]; [by eapply assignLaneCount_inside|].
      exfalso. apply Hic, list_elem_of_In, in_concat. exists g.
      split; by apply list_elem_of_In.
Qed.


Lemma layoutEvents_state blocks : layoutEvents blocks = events (layoutState blocks).
Proof. by destruct blocks. Qed.



(** * Further properties *)

(** ** Time utilities, both ways *)

Lemma check_wf_print_true : check_wf_print = true.
Proof. vm_compute. reflexivity. Qed.

Lemma wf_time_print (t : string) :
  wf_time t = true -> minutesToTime (timeToMinutes t) = t.
Proof.
  intros W. pose proof W as W'. unfold wf_time in W.
  destruct t as [|a [|b [|c [|d [|e [|]]]]]]; try discriminate.
  do 6 (apply andb_prop in W as [W ?]).
  assert (c = ":"%char) as -> by (by apply Ascii.eqb_eq).
  pose proof check_wf_print_true as C. unfold check_wf_print in C.
  rewrite forallb_forall in C. specialize (C a (is_digit_in a W)).
  rewrite forallb_forall in C. specialize (C b (is_digit_in b ltac:(done))).
  rewrite forallb_forall in C. specialize (C d (is_digit_in d ltac:(done))).
  rewrite forallb_forall in C. specialize (C e (is_digit_in e ltac:(done))).
  cbv zeta in C. rewrite W' in C. simpl implb in C.
  by apply String.eqb_eq.
Qed.

(** X1: a well-formed [HH:MM] read as minutes and printed again is the
    same text. *)
Theorem parse_then_print (t : string) :
  wf_time t = true -> minutesToTime (timeToMinutes t) = t.
Proof. apply wf_time_print. Qed.

Lemma parse_then_print_witness :
  wf_time "23:05" = true /\ minutesToTime (timeToMinutes "23:05") = "23:05".
Proof. split; [reflexivity | apply (parse_then_print "23:05"); reflexivity]. Defined.

(** X2: minutes from 0 on print as a well-formed time that reads back as
    the minute of the day, so that times a whole day apart print alike. *)
Theorem print_then_parse (m : Z) :
  0 <= m ->
  wf_time (minutesToTime (Int m)) = true /\
  timeToMinutes (minutesToTime (Int m)) = Int (m mod 1440) /\
  minutesToTime (Int (m + 1440)) = minutesToTime (Int m).
Proof.
  intros Hm. split; [by apply minutesToTime_wf|].
  split; [by apply timeToMinutes_minutesToTime|].
  rewrite <- (wf_time_print (minutesToTime (Int (m + 1440))))
    by (apply minutesToTime_wf; lia).
  rewrite <- (wf_time_print (minutesToTime (Int m)))
    by (by apply minutesToTime_wf).
  rewrite !timeToMinutes_minutesToTime by lia.
  replace (m + 1440) with (m + 1 * 1440) by lia. by rewrite Z_mod_plus_full.
Qed.

Lemma print_then_parse_witness :
  wf_time (minutesToTime (Int 1500)) = true /\
  timeToMinutes (minutesToTime (Int 1500)) = Int (1500 mod 1440) /\
  minutesToTime (Int (1500 + 1440)) = minutesToTime (Int 1500).
Proof. apply (print_then_parse 1500). lia. Defined.

Lemma addMinutesToTime_print (time : string) (minutes : Z) :
  addMinutesToTime time minutes
  = minutesToTime (num_add (timeToMinutes time) (Int minutes)).
Proof. reflexivity. Qed.

(** X3: adding minutes to a time moves it by that much on the 24-hour
    face, and two additions amount to one addition of the sum. *)
Theorem addMinutesToTime_sum (time : string) (s a b : Z) :
  timeToMinutes time = Int s -> 0 <= s -> 0 <= a -> 0 <= b ->
  timeToMinutes (addMinutesToTime time a) = Int ((s + a) mod 1440) /\
  addMinutesToTime (addMinutesToTime time a) b = addMinutesToTime time (a + b).
Proof.
  intros Es Hs Ha Hb. rewrite !addMinutesToTime_print, Es. simpl num_add.
  rewrite timeToMinutes_minutesToTime by lia. split; [done|]. simpl num_add.
  rewrite <- (wf_time_print (minutesToTime (Int ((s + a) mod 1440 + b)))).
  2: { apply minutesToTime_wf. pose proof (Z.mod_pos_bound (s + a) 1440). lia. }
  rewrite <- (wf_time_print (minutesToTime (Int (s + (a + b)))))
    by (apply minutesToTime_wf; lia).
  rewrite !timeToMinutes_minutesToTime.
  2: lia. 2: { pose proof (Z.mod_pos_bound (s + a) 1440). lia. }
  rewrite Zplus_mod_idemp_l. do 3 f_equal. lia.
Qed.

Lemma addMinutesToTime_sum_witness :
  timeToMinutes (addMinutesToTime "23:00" 90) = Int ((1380 + 90) mod 1440) /\
  addMinutesToTime (addMinutesToTime "23:00" 90) 45 = addMinutesToTime "23:00" (90 + 45).
Proof. apply (addMinutesToTime_sum "23:00" 1380 90 45); first [reflexivity | lia]. Defined.

(** ** Snapping *)

(** X4: snapping is idempotent. *)
Theorem snapToGrid_idempotent (minutes : qnum) :
  snapToGrid (num_to_q (snapToGrid minutes)) = snapToGrid minutes.
Proof.
  destruct minutes as [|q]; [reflexivity|].
  unfold snapToGrid at 2. rewrite snapToGrid_Int. f_equal.
  set (k := Math_round (q / SNAP_MINUTES)).
  replace (2 * (k * 5) + 5) with (5 + k * 10) by lia.
  rewrite Z.div_add by lia. reflexivity.
Qed.

(** X5: the snapped value is the multiple of 5 nearest to the input, the
    upper one at a tie. *)
Theorem snapToGrid_nearest (q : Q) :
  exists r, snapToGrid (QNum q) = Int r /\ r mod 5 = 0 /\
            (inject_Z r - (5 # 2) <= q /\ q < inject_Z r + (5 # 2))%Q.
Proof.
  exists (Math_round (q / SNAP_MINUTES) * 5). split; [reflexivity|].
  split; [apply Z.mod_mul; lia|].
  destruct (Math_round_nearest (q / SNAP_MINUTES)) as [L U].
  set (k := Math_round _) in *. rewrite inject_Z_mult.
  change (inject_Z 5) with 5%Q.
  unfold SNAP_MINUTES, Qdiv in L, U. change (/ 5)%Q with (1 # 5)%Q in L, U.
  split; lra.
Qed.

(** ** Score and suggestions *)

(** X6: the score is a multiple of 5 between 0 and 100, whatever the
    blocks. *)
Theorem score_range (blocks : list ScheduleBlock) :
  0 <= calculateOptimizationScore blocks <= 100 /\
  calculateOptimizationScore blocks mod 5 = 0.
Proof.
  unfold calculateOptimizationScore. cbv zeta.
  repeat match goal with |- context [if ?c then _ else _] => destruct c end;
    (split; [lia | reflexivity]).
Qed.

(** X7: there are always between one and four suggestions; the
    well-balanced message comes only with its companion and nothing else;
    and when the four balance rules all fire, the advice on long work
    sessions is cut off. *)
Theorem suggestions_shape (blocks : list ScheduleBlock) (originalInput : string) :
  (1 <= length (generateSmartSuggestions blocks originalInput) <= 4)%nat /\
  (In "Your schedule looks well-balanced!"
      (generateSmartSuggestions blocks originalInput) ->
   generateSmartSuggestions blocks originalInput
   = ["Your schedule looks well-balanced!";
      "Consider adding variety to keep things interesting"]) /\
  (Qlt_b 9 (workHours (calculateWorkLifeBalance blocks)) = true ->
   (exerciseMinutes (calculateWorkLifeBalance blocks) <? 30) = true ->
   Qlt_b (sleepHours (calculateWorkLifeBalance blocks)) 7 = true ->
   Qlt_b (personalHours (calculateWorkLifeBalance blocks)) 2 = true ->
   ~ In "Add short breaks during long work sessions to maintain productivity"
        (generateSmartSuggestions blocks originalInput)).
Proof.
  unfold generateSmartSuggestions. cbv zeta.
  destruct (Qlt_b 9 (workHours (calculateWorkLifeBalance blocks)));
    destruct (exerciseMinutes (calculateWorkLifeBalance blocks) <? 30);
    destruct (Qlt_b (sleepHours (calculateWorkLifeBalance blocks)) 7);
    destruct (Qlt_b (personalHours (calculateWorkLifeBalance blocks)) 2);
    destruct (existsb _ _); simpl;
    (split; [lia | split;
      [ intros Hin;
        first [ reflexivity
              | exfalso; repeat destruct Hin as [Hin|Hin];
                first [discriminate | done] ]
      | intros A B C D; try discriminate; intros Hin;
        repeat destruct Hin as [Hin|Hin]; first [discriminate | done] ]]).
Qed.

(** ** Aggregates *)

Lemma addToTotals_comm (totals : Totals) (a b : ScheduleBlock) :
  addToTotals (addToTotals totals a) b = addToTotals (addToTotals totals b) a.
Proof.
  unfold addToTotals. destruct (b_type a), (b_type b); simpl; f_equal; lia.
Qed.

Lemma totals_permutation (l l' : list ScheduleBlock) :
  l ≡ₚ l' ->
  forall totals, fold_left addToTotals l totals = fold_left addToTotals l' totals.
Proof.
  induction 1 as [|x l l' _ IH|x y l|l l' l'' _ IH1 _ IH2]; intros totals; simpl.
  - done.
  - apply IH.
  - by rewrite addToTotals_comm.
  - by rewrite IH1, IH2.
Qed.

(** X8: the balance does not depend on the order of the blocks. *)
Theorem balance_order_independent (l l' : list ScheduleBlock) :
  l ≡ₚ l' -> calculateWorkLifeBalance l = calculateWorkLifeBalance l'.
Proof.
  intros H. unfold calculateWorkLifeBalance. by rewrite (totals_permutation l l' H).
Qed.

Lemma balance_order_independent_witness :
  calculateWorkLifeBalance (rev morning) = calculateWorkLifeBalance morning.
Proof.
  apply (balance_order_independent (rev morning) morning).
  symmetry. apply Permutation_rev.
Defined.

Lemma tally_sum (schedule : list ScheduleBlock) :
  forall (a : Analytics) (tot : Z),
    sumZ (map a analyticsKeys) = tot ->
    sumZ (map (fst (fold_left addToAnalytics schedule (a, tot))) analyticsKeys)
    = snd (fold_left addToAnalytics schedule (a, tot)).
Proof.
  induction schedule as [|b l IH]; intros a tot H; simpl; [done|].
  apply IH. revert H. unfold analyticsKeys, sumZ. simpl.
  destruct (b_type b); simpl; lia.
Qed.

Lemma sum_positive_items (f : BlockType -> BreakdownItem) (keys : list BlockType) :
  Forall (fun t => 0 <= minutes (f t)) keys ->
  sumZ (map minutes (List.filter (fun it => 0 <? minutes it) (map f keys)))
  = sumZ (map (fun t => minutes (f t)) keys).
Proof.
  induction 1 as [|t keys Ht _ IH]; simpl; [done|].
  destruct (0 <? minutes (f t)) eqn:E; simpl; rewrite IH; [done|].
  apply Z.ltb_ge in E. lia.
Qed.

Lemma Math_round_percent (m t : Z) :
  0 <= m <= t -> 0 < t ->
  0 <= Math_round (inject_Z m / inject_Z t * 100) <= 100.
Proof.
  intros Hm Ht. unfold Math_round.
  assert (0 <= inject_Z m / inject_Z t * 100 <= 100)%Q as [L U].
  { assert (0 < inject_Z t)%Q as Tp
      by (change (inject_Z 0 < inject_Z t)%Q; by rewrite <- Zlt_Qlt).
    assert (0 <= inject_Z m / inject_Z t)%Q as L'.
    { apply Qle_shift_div_l; [done|]. rewrite Qmult_0_l.
      change (inject_Z 0 <= inject_Z m)%Q. rewrite <- Zle_Qle. lia. }
    assert (inject_Z m / inject_Z t <= 1)%Q as U'.
    { apply Qle_shift_div_r; [done|]. rewrite Qmult_1_l.
      rewrite <- Zle_Qle. lia. }
    set (x := (inject_Z m / inject_Z t)%Q) in *. clearbody x. split; lra. }
  set (x := (inject_Z m / inject_Z t * 100)%Q) in *. clearbody x.
  split.
  - change 0 with (Qfloor (0 + (1 # 2))). apply Qfloor_resp_le. lra.
  - change 100 with (Qfloor (100 + (1 # 2))). apply Qfloor_resp_le. lra.
Qed.

Lemma tally_total (schedule : list ScheduleBlock) :
  forall (a : Analytics) (tot : Z),
    snd (fold_left addToAnalytics schedule (a, tot))
    = tot + sumZ (map duration schedule).
Proof.
  induction schedule as [|b l IH]; intros a tot; simpl; [lia|].
  rewrite IH. unfold sumZ. lia.
Qed.

Lemma tallyAnalytics_sum (schedule : list ScheduleBlock) :
  sumZ (map (fst (tallyAnalytics schedule)) analyticsKeys)
  = snd (tallyAnalytics schedule).
Proof. by apply tally_sum. Qed.

Lemma tallyAnalytics_total (schedule : list ScheduleBlock) :
  snd (tallyAnalytics schedule) = sumZ (map duration schedule).
Proof. unfold tallyAnalytics. by rewrite tally_total. Qed.

(** X9: with non-negative durations, [totalMinutes] is the sum of the
    durations, the breakdown lists types with positive minutes whose
    minutes add up to that total, and every percentage is a whole number
    from 0 to 100. *)
Theorem analytics_breakdown (schedule : list ScheduleBlock) :
  forallb (fun b => 0 <=? duration b) schedule = true ->
  totalMinutes (generateTimeAnalytics schedule) = sumZ (map duration schedule) /\
  sumZ (map minutes (breakdown (generateTimeAnalytics schedule)))
  = totalMinutes (generateTimeAnalytics schedule) /\
  (forall it, In it (breakdown (generateTimeAnalytics schedule)) ->
     0 < minutes it /\
     exists p, percentage it = Fin (inject_Z p) /\ 0 <= p <= 100).
Proof.
  intros Hd. unfold generateTimeAnalytics.
  pose proof (tallyAnalytics_bounds schedule Hd) as B.
  pose proof (tallyAnalytics_sum schedule) as S.
  pose proof (tallyAnalytics_total schedule) as T.
  destruct (tallyAnalytics schedule) as [a tot].
  cbn [totalMinutes breakdown fst snd] in *.
  split; [lia|]. split.
  - rewrite sum_positive_items; [exact S|].
    apply Forall_forall. intros t _. cbn [minutes]. apply B.
  - intros it Hin. apply filter_In in Hin as [Hin Hpos].
    apply Z.ltb_lt in Hpos. split; [done|].
    apply in_map_iff in Hin as (t & <- & _). cbn [percentage minutes] in *.
    destruct (0 <? tot) eqn:E; [|by exists 0].
    apply Z.ltb_lt in E. unfold fdiv.
    destruct (tot =? 0) eqn:E0; [apply Z.eqb_eq in E0; lia|].
    cbn [fscale fround]. eexists. split; [reflexivity|].
    apply Math_round_percent; [apply B | done].
Qed.

Lemma analytics_breakdown_witness :
  totalMinutes (generateTimeAnalytics morning) = sumZ (map duration morning) /\
  sumZ (map minutes (breakdown (generateTimeAnalytics morning)))
  = totalMinutes (generateTimeAnalytics morning) /\
  (forall it, In it (breakdown (generateTimeAnalytics morning)) ->
     0 < minutes it /\
     exists p, percentage it = Fin (inject_Z p) /\ 0 <= p <= 100).
Proof. apply (analytics_breakdown morning). reflexivity. Defined.

(** ** Block Repairer, continued *)

Lemma fixBlocks_shape l :
  forall index lastEndTime,
    length (fixBlocks l index lastEndTime) = length l /\
    map b_id (fixBlocks l index lastEndTime)
    = map (fun i => String_of_Z (Z.of_nat i + 1)) (seq index (length l)) /\
    map (fun b => (kept b, duration b)) (fixBlocks l index lastEndTime)
    = map (fun b => (kept b, Z.max (duration b) 15)) l /\
    Forall (fun b => 15 <= duration b) (fixBlocks l index lastEndTime).
Proof.
  induction l as [|b l IH]; intros index lastEndTime; [by repeat split|].
  cbn [fixBlocks length map seq].
  destruct (IH (S index)
              (minutesToTime
                 (num_add
                    (timeToMinutes
                       (if num_lt (timeToMinutes (startTime b))
                                  (timeToMinutes lastEndTime)
                        then lastEndTime else startTime b))
                    (Int (Z.max (duration b) 15)))))
    as (H1 & H2 & H3 & H4).
  repeat split.
  - by rewrite H1.
  - by rewrite H2.
  - by rewrite H3.
  - constructor; [cbn [duration]; lia | done].
Qed.

(** X10: the Repairer drops and adds no block: it returns as many blocks
    as it was given, numbered 1, 2, ... in order, each with the title, type
    and other fields of an input block and a duration of at least 15
    minutes, the larger of the given duration and 15. *)
Theorem repair_keeps_blocks (schedule : DailySchedule) (originalInput : string) :
  length (blocks (validateAndFixSchedule schedule originalInput))
  = length (blocks schedule) /\
  map b_id (blocks (validateAndFixSchedule schedule originalInput))
  = map (fun i => String_of_Z (Z.of_nat i + 1)) (seq 0 (length (blocks schedule))) /\
  map (fun b => (kept b, duration b))
      (blocks (validateAndFixSchedule schedule originalInput))
  ≡ₚ map (fun b => (kept b, Z.max (duration b) 15)) (blocks schedule) /\
  Forall (fun b => 15 <= duration b)
         (blocks (validateAndFixSchedule schedule originalInput)).
Proof.
  cbn [validateAndFixSchedule blocks].
  destruct (fixBlocks_shape (Array_sort compareByStart (blocks schedule)) 0 "00:00")
    as (H1 & H2 & H3 & H4).
  pose proof (Array_sort_perm compareByStart (blocks schedule)) as HP.
  repeat split.
  - rewrite H1. by apply Permutation_length.
  - rewrite H2. by rewrite (Permutation_length HP).
  - rewrite H3. by apply Permutation_map.
  - done.
Qed.

Lemma fixBlocks_not_earlier l :
  forall index lastEndTime L,
    timeToMinutes lastEndTime = Int L -> 0 <= L ->
    forallb (fun b => parses (startTime b)) l = true ->
    Forall2 (fun b f =>
               kept f = kept b /\
               num_le (timeToMinutes (startTime b)) (timeToMinutes (startTime f)) = true)
            l (fixBlocks l index lastEndTime).
Proof.
  induction l as [|b l IH]; intros index lastEndTime L HL L0 Hp; [constructor|].
  simpl in Hp. apply andb_prop in Hp as [Hb Hl]. unfold parses in Hb.
  cbn [fixBlocks].
  destruct (timeToMinutes (startTime b)) as [|s] eqn:Es; [discriminate|].
  rewrite HL. cbn [num_lt].
  assert (exists A, timeToMinutes (if s <? L then lastEndTime else startTime b) = Int A
                    /\ L <= A /\ s <= A) as (A & EA & LA & SA).
  { destruct (s <? L) eqn:C; [exists L | exists s]; repeat split; auto; lia. }
  constructor.
  - split; [reflexivity|]. cbn [startTime]. rewrite EA, Es. simpl. by apply Z.leb_le.
  - rewrite EA. cbn [num_add].
    eapply IH; [apply timeToMinutes_minutesToTime; lia | | done].
    apply Z.mod_pos_bound. lia.
Qed.

(** X11: the Repairer never moves a block to an earlier start: the i-th
    block it returns is the i-th input block in start order, starting at
    the same minute or later. *)
Theorem repair_never_earlier (schedule : DailySchedule) (originalInput : string) :
  forallb (fun b => parses (startTime b)) (blocks schedule) = true ->
  Forall2 (fun b f =>
             kept f = kept b /\
             num_le (timeToMinutes (startTime b)) (timeToMinutes (startTime f)) = true)
          (Array_sort compareByStart (blocks schedule))
          (blocks (validateAndFixSchedule schedule originalInput)).
Proof.
  intros Hp. cbn [validateAndFixSchedule blocks].
  apply (fixBlocks_not_earlier _ 0 "00:00" 0);
    [apply zero_parses | lia | by apply sorted_parses].
Qed.

Lemma repair_never_earlier_witness :
  Forall2 (fun b f =>
             kept f = kept b /\
             num_le (timeToMinutes (startTime b)) (timeToMinutes (startTime f)) = true)
          (Array_sort compareByStart (blocks (mkDay morning)))
          (blocks (validateAndFixSchedule (mkDay morning) "")).
Proof. apply (repair_never_earlier (mkDay morning) ""). reflexivity. Defined.

Lemma fixBlocks_totals l :
  forall index lastEndTime totals,
    forallb (fun b => 15 <=? duration b) l = true ->
    fold_left addToTotals (fixBlocks l index lastEndTime) totals
    = fold_left addToTotals l totals.
Proof.
  induction l as [|b l IH]; intros index lastEndTime totals Hd; [done|].
  simpl in Hd. apply andb_prop in Hd as [Hb Hl]. apply Z.leb_le in Hb.
  cbn [fixBlocks fold_left]. rewrite IH by done. f_equal.
  unfold addToTotals. cbn [b_type duration].
  replace (Z.max (duration b) 15) with (duration b) by lia. reflexivity.
Qed.

(** X12: when every given duration is at least 15 minutes, the balance of
    the repaired schedule is the balance of the blocks as given. *)
Theorem repair_keeps_balance (schedule : DailySchedule) (originalInput : string) :
  forallb (fun b => 15 <=? duration b) (blocks schedule) = true ->
  workLifeBalance (validateAndFixSchedule schedule originalInput)
  = calculateWorkLifeBalance (blocks schedule).
Proof.
  intros Hd. cbn [validateAndFixSchedule workLifeBalance].
  unfold calculateWorkLifeBalance.
  pose proof (Array_sort_perm compareByStart (blocks schedule)) as HP.
  rewrite fixBlocks_totals.
  - by rewrite (totals_permutation _ _ HP).
  - rewrite forallb_forall in *. intros b Hb. apply Hd.
    apply list_elem_of_In. rewrite <- HP. by apply list_elem_of_In.
Qed.

Lemma repair_keeps_balance_witness :
  workLifeBalance (validateAndFixSchedule (mkDay lateEvening) "")
  = calculateWorkLifeBalance (blocks (mkDay lateEvening)).
Proof. apply (repair_keeps_balance (mkDay lateEvening) ""). reflexivity. Defined.

(** ** Editing the block list *)

Lemma findBlock_map (f : ScheduleBlock -> ScheduleBlock) blocks blockId :
  (forall b, b_id (f b) = b_id b) ->
  findBlock (map f blocks) blockId = f <$> findBlock blocks blockId.
Proof.
  intros Hf. unfold findBlock.
  induction blocks as [|b l IH]; simpl; [done|].
  rewrite Hf. destruct (String.eqb (b_id b) blockId); [done|apply IH].
Qed.

(** X13: an update that carries no id changes the blocks of that id and no
    other: the list keeps its length, looking the id up gives the merged
    block, every other id is found as before, and an id that is absent
    leaves the list as it was. *)
Theorem update_lookup (blocks : list ScheduleBlock) (blockId : string)
    (updates : BlockUpdates) :
  u_id updates = None ->
  length (handleBlockUpdate blocks blockId updates) = length blocks /\
  findBlock (handleBlockUpdate blocks blockId updates) blockId
  = (fun b => mergeUpdates b updates) <$> findBlock blocks blockId /\
  (forall other, other <> blockId ->
     findBlock (handleBlockUpdate blocks blockId updates) other
     = findBlock blocks other) /\
  (findBlock blocks blockId = None ->
   handleBlockUpdate blocks blockId updates = blocks).
Proof.
  intros Hid. unfold handleBlockUpdate.
  assert (Hkeep : forall b,
            b_id (if String.eqb (b_id b) blockId then mergeUpdates b updates else b)
            = b_id b).
  { intros b. destruct (String.eqb (b_id b) blockId); [|done].
    unfold mergeUpdates. cbn [b_id]. by rewrite Hid. }
  split; [apply length_map|]. split; [|split].
  - rewrite findBlock_map by done. unfold findBlock.
    destruct (find _ blocks) as [b|] eqn:E; [|done].
    apply find_some in E as [_ E]. simpl. by rewrite E.
  - intros other Hne. rewrite findBlock_map by done. unfold findBlock.
    destruct (find _ blocks) as [b|] eqn:E; [|done].
    apply find_some in E as [_ E]. apply String.eqb_eq in E. simpl.
    destruct (String.eqb (b_id b) blockId) eqn:E'; [|done].
    apply String.eqb_eq in E'. congruence.
  - intros Hnone. unfold findBlock in Hnone.
    induction blocks as [|b l IH]; simpl in *; [done|].
    destruct (String.eqb (b_id b) blockId); [done|]. by rewrite IH.
Qed.

Lemma update_lookup_witness :
  length (handleBlockUpdate morning "b" (updateEndTime "10:30")) = length morning /\
  findBlock (handleBlockUpdate morning "b" (updateEndTime "10:30")) "b"
  = (fun b => mergeUpdates b (updateEndTime "10:30")) <$> findBlock morning "b" /\
  (forall other, other <> "b" ->
     findBlock (handleBlockUpdate morning "b" (updateEndTime "10:30")) other
     = findBlock morning other) /\
  (findBlock morning "b" = None ->
   handleBlockUpdate morning "b" (updateEndTime "10:30") = morning).
Proof. apply (update_lookup morning "b" (updateEndTime "10:30")). reflexivity. Defined.

(** X14: after a delete the id is no longer found and every other id is
    found as before; deleting an id that is absent changes nothing, and a
    second delete of the same id changes nothing more. *)
Theorem delete_lookup (blocks : list ScheduleBlock) (blockId : string) :
  findBlock (handleBlockDelete blocks blockId) blockId = None /\
  (forall other, other <> blockId ->
     findBlock (handleBlockDelete blocks blockId) other = findBlock blocks other) /\
  (findBlock blocks blockId = None -> handleBlockDelete blocks blockId = blocks) /\
  handleBlockDelete (handleBlockDelete blocks blockId) blockId
  = handleBlockDelete blocks blockId.
Proof.
  unfold handleBlockDelete, findBlock. repeat split.
  - induction blocks as [|b l IH]; simpl; [done|].
    destruct (String.eqb (b_id b) blockId) eqn:E; simpl; [done|]. by rewrite E.
  - intros other Hne. induction blocks as [|b l IH]; simpl; [done|].
    destruct (String.eqb (b_id b) blockId) eqn:E; simpl.
    + apply String.eqb_eq in E.
      destruct (String.eqb (b_id b) other) eqn:E'; [|done].
      apply String.eqb_eq in E'. congruence.
    + destruct (String.eqb (b_id b) other); [done|apply IH].
  - intros Hnone. induction blocks as [|b l IH]; simpl in *; [done|].
    destruct (String.eqb (b_id b) blockId); [done|]. simpl. by rewrite IH.
  - induction blocks as [|b l IH]; simpl; [done|].
    destruct (String.eqb (b_id b) blockId) eqn:E; simpl; [done|].
    rewrite E. simpl. by rewrite IH.
Qed.

Lemma delete_map {A B} (f : A -> B) (l : list A) i :
  delete i (map f l) = map f (delete i l).
Proof. revert i. induction l as [|a l IH]; intros [|i]; simpl; auto. by f_equal. Qed.

Lemma delete_past_end {A} (l : list A) i : (length l <= i)%nat -> delete i l = l.
Proof.
  revert i. induction l as [|a l IH]; intros [|i] H; simpl in *; auto; [lia|].
  f_equal. apply IH. lia.
Qed.

(** X15: moving a block between two positions of the list returns the
    same blocks with the moved one at the target position and the others in
    their former order; a source position past the end instead adds an
    [undefined] entry to the list. *)
Theorem reorder_moves_block (blocks : list ScheduleBlock) (fromIndex toIndex : nat) :
  ((fromIndex < length blocks)%nat -> (toIndex < length blocks)%nat ->
   exists r,
     handleBlockReorder blocks fromIndex toIndex = map Some r /\
     r ≡ₚ blocks /\
     r !! toIndex = blocks !! fromIndex /\
     delete toIndex r = delete fromIndex blocks) /\
  ((length blocks <= fromIndex)%nat ->
   length (handleBlockReorder blocks fromIndex toIndex) = S (length blocks) /\
   In None (handleBlockReorder blocks fromIndex toIndex)).
Proof.
  unfold handleBlockReorder. cbv zeta. split.
  - intros Hf Ht.
    destruct (lookup_lt_is_Some_2 blocks fromIndex Hf) as [b Hb].
    rewrite lookup_map, Hb. simpl. rewrite delete_map.
    set (d := delete fromIndex blocks).
    assert (length d = pred (length blocks)) as Hd.
    { subst d. rewrite length_delete by eauto. lia. }
    assert (length (take toIndex d) = toIndex) as Hlen
      by (apply length_take_le; lia).
    exists (take toIndex d ++ b :: drop toIndex d). repeat split.
    + rewrite map_app. simpl. by rewrite <- firstn_map, <- skipn_map.
    + rewrite <- Permutation_middle, take_drop. symmetry.
      by apply delete_Permutation.
    + by apply list_lookup_middle.
    + rewrite <- Hlen at 1. rewrite delete_middle. apply take_drop.
  - intros Hf.
    rewrite (lookup_ge_None_2 (map Some blocks) fromIndex)
      by (by rewrite length_map).
    rewrite (delete_past_end (map Some blocks) fromIndex) by (by rewrite length_map).
    split.
    + rewrite length_app. simpl.
      rewrite Nat.add_succ_r, <- length_app, take_drop. by rewrite length_map.
    + apply in_or_app. right. by left.
Qed.

Lemma reorder_moves_block_witness :
  exists r,
    handleBlockReorder morning 0 2 = map Some r /\
    r ≡ₚ morning /\
    r !! 2%nat = morning !! 0%nat /\
    delete 2%nat r = delete 0%nat morning.
Proof. apply (proj1 (reorder_moves_block morning 0 2)); simpl; lia. Defined.

(** ** Keyboard moves and resizing *)

Lemma handleKeyDown_ArrowUp blocks blockId block sh s e :
  findBlock blocks blockId = Some block ->
  timeToMinutes (startTime block) = Int s ->
  timeToMinutes (endTime block) = Int e ->
  handleKeyDown blocks (mkKey "ArrowUp" sh) blockId
  = Some (OnBlockUpdate blockId
            (updateTimes
               (minutesToTime (Int (Z.max 0 ((2 * (s - 15) + 5) / 10 * 5))))
               (minutesToTime (Int (Z.max 0 ((2 * (s - 15) + 5) / 10 * 5) + (e - s)))))).
Proof.
  intros Hf Es Ee. unfold handleKeyDown. rewrite Hf, Es, Ee.
  cbn [key String.eqb Ascii.eqb Bool.eqb num_sub]. by rewrite snapToGrid_Int.
Qed.

Lemma handleKeyDown_ArrowDown blocks blockId block sh s e :
  findBlock blocks blockId = Some block ->
  timeToMinutes (startTime block) = Int s ->
  timeToMinutes (endTime block) = Int e ->
  handleKeyDown blocks (mkKey "ArrowDown" sh) blockId
  = Some (OnBlockUpdate blockId
            (updateTimes
               (minutesToTime
                  (Int (Z.min (1440 - (e - s)) ((2 * (s + 15) + 5) / 10 * 5))))
               (minutesToTime
                  (Int (Z.min (1440 - (e - s)) ((2 * (s + 15) + 5) / 10 * 5)
                        + (e - s)))))).
Proof.
  intros Hf Es Ee. unfold handleKeyDown. rewrite Hf, Es, Ee.
  cbn [key String.eqb Ascii.eqb Bool.eqb num_sub num_add].
  by rewrite snapToGrid_Int.
Qed.

(** X16: the Up and Down arrows move a block that lies within one day by
    a quarter of an hour and keep it within the day: Up writes a start [c]
    on the grid, not below 0 and not after the old start; Down writes a
    start not before the old one whose end stays at or before 24:00; both
    write the end [e - s] minutes after the start; and from a start on the
    grid the move is by exactly 15 minutes unless a bound stops it. *)
Theorem arrow_keys_move (blocks : list ScheduleBlock) (blockId : string)
    (block : ScheduleBlock) (sh : bool) (s e : Z) :
  findBlock blocks blockId = Some block ->
  timeToMinutes (startTime block) = Int s ->
  timeToMinutes (endTime block) = Int e ->
  0 <= s -> s <= e -> e < 1440 ->
  (exists c,
     handleKeyDown blocks (mkKey "ArrowUp" sh) blockId
     = Some (OnBlockUpdate blockId
               (updateTimes (minutesToTime (Int c))
                            (minutesToTime (Int (c + (e - s)))))) /\
     0 <= c <= s /\ c mod 5 = 0 /\
     (s mod 5 = 0 -> c = Z.max 0 (s - 15)) /\
     timeToMinutes (minutesToTime (Int c)) = Int c /\
     timeToMinutes (minutesToTime (Int (c + (e - s)))) = Int (c + (e - s))) /\
  (exists c,
     handleKeyDown blocks (mkKey "ArrowDown" sh) blockId
     = Some (OnBlockUpdate blockId
               (updateTimes (minutesToTime (Int c))
                            (minutesToTime (Int (c + (e - s)))))) /\
     s <= c /\ c + (e - s) <= 1440 /\
     (s mod 5 = 0 -> c = Z.min (1440 - (e - s)) (s + 15)) /\
     timeToMinutes (minutesToTime (Int c)) = Int (c mod 1440) /\
     timeToMinutes (minutesToTime (Int (c + (e - s)))) = Int ((c + (e - s)) mod 1440)).
Proof.
  intros Hf Es Ee H0 Hse He. split.
  - destruct (snap_integer (s - 15)) as (B & M & G).
    exists (Z.max 0 ((2 * (s - 15) + 5) / 10 * 5)).
    split; [by eapply handleKeyDown_ArrowUp|].
    set (k := (2 * (s - 15) + 5) / 10 * 5) in *.
    split; [lia|]. split.
    { destruct (Z.max_spec 0 k) as [[_ ->]|[_ ->]]; [done|reflexivity]. }
    split.
    { intros Hg. rewrite G; [done|].
      replace (s - 15) with (s + (-3) * 5) by lia. by rewrite Z_mod_plus_full. }
    split; rewrite timeToMinutes_minutesToTime by lia; f_equal;
      apply Z.mod_small; lia.
  - destruct (snap_integer (s + 15)) as (B & M & G).
    exists (Z.min (1440 - (e - s)) ((2 * (s + 15) + 5) / 10 * 5)).
    split; [by eapply handleKeyDown_ArrowDown|].
    set (k := (2 * (s + 15) + 5) / 10 * 5) in *.
    split; [lia|]. split; [lia|]. split.
    { intros Hg. rewrite G; [done|].
      replace (s + 15) with (s + 3 * 5) by lia. by rewrite Z_mod_plus_full. }
    split; apply timeToMinutes_minutesToTime; lia.
Qed.

Lemma arrow_keys_move_witness :
  (exists c,
     handleKeyDown [meeting] (mkKey "ArrowUp" false) "1"
     = Some (OnBlockUpdate "1"
               (updateTimes (minutesToTime (Int c))
                            (minutesToTime (Int (c + (600 - 540)))))) /\
     0 <= c <= 540 /\ c mod 5 = 0 /\
     (540 mod 5 = 0 -> c = Z.max 0 (540 - 15)) /\
     timeToMinutes (minutesToTime (Int c)) = Int c /\
     timeToMinutes (minutesToTime (Int (c + (600 - 540)))) = Int (c + (600 - 540))) /\
  (exists c,
     handleKeyDown [meeting] (mkKey "ArrowDown" false) "1"
     = Some (OnBlockUpdate "1"
               (updateTimes (minutesToTime (Int c))
                            (minutesToTime (Int (c + (600 - 540)))))) /\
     540 <= c /\ c + (600 - 540) <= 1440 /\
     (540 mod 5 = 0 -> c = Z.min (1440 - (600 - 540)) (540 + 15)) /\
     timeToMinutes (minutesToTime (Int c)) = Int (c mod 1440) /\
     timeToMinutes (minutesToTime (Int (c + (600 - 540))))
     = Int ((c + (600 - 540)) mod 1440)).
Proof.
  apply (arrow_keys_move [meeting] "1" meeting false 540 600);
    first [reflexivity | lia].
Defined.

Lemma handleResizeMouseDown_state blocks y0 blockId st :
  handleResizeMouseDown blocks 0 y0 blockId = Some st ->
  exists block,
    findBlock blocks blockId = Some block /\
    resizeBlockId st = blockId /\ resizeStartY st = y0 /\
    resizeOriginalEndTime st = timeToMinutes (endTime block) /\
    resizeOriginalStartTime st = timeToMinutes (startTime block).
Proof.
  unfold handleResizeMouseDown. simpl.
  destruct (findBlock blocks blockId) as [b|]; [|discriminate].
  intros [= <-]. exists b. auto.
Qed.

(** X17: a resize writes the end time only.  A pointer delta of [y - y0]
    whole pixels is a delta of as many minutes; the end written is the
    multiple of 5 nearest to the candidate [e + (y - y0)], held between 15
    minutes after the start and 24:00.  The block keeps at least 15
    minutes, and an end at 24:00 is written as ["00:00"]. *)
Theorem resize_postcondition
    (blocks : list ScheduleBlock) (blockId : string) (y0 y : Z)
    (st : ResizeState) (block : ScheduleBlock) (s e : Z) :
  handleResizeMouseDown blocks 0 y0 blockId = Some st ->
  findBlock blocks blockId = Some block ->
  timeToMinutes (startTime block) = Int s ->
  timeToMinutes (endTime block) = Int e ->
  0 <= s -> s + 15 <= 1440 ->
  exists snapped c,
    snapToGrid (num_to_q (Int (e + (y - y0)))) = Int snapped /\
    snapped mod 5 = 0 /\
    e + (y - y0) - 2 <= snapped <= e + (y - y0) + 2 /\
    c = Z.max (s + 15) (Z.min 1440 snapped) /\
    s + 15 <= c <= 1440 /\
    resizeMouseMove true st y
    = Some (OnBlockUpdate blockId (updateEndTime (minutesToTime (Int c)))) /\
    timeToMinutes (minutesToTime (Int c)) = Int (c mod 1440) /\
    (c = 1440 -> minutesToTime (Int c) = "00:00").
Proof.
  intros Hd Hf Es Ee H0 H15.
  apply handleResizeMouseDown_state in Hd as (b & Hb & Hid & Hy & Hoe & Hos).
  rewrite Hf in Hb. injection Hb as <-.
  destruct (snap_integer (e + (y - y0))) as (Hnear & Hgrid & _).
  set (snapped := (2 * (e + (y - y0)) + 5) / 10 * 5) in *.
  exists snapped, (Z.max (s + 15) (Z.min 1440 snapped)).
  split; [apply snapToGrid_Int|]. split; [exact Hgrid|]. split; [exact Hnear|].
  split; [reflexivity|]. split; [lia|]. split.
  { unfold resizeMouseMove. cbn [negb]. rewrite Hoe, Hos, Hy, Hid, Es, Ee.
    cbn [num_to_q qnum_add]. rewrite snapToGrid_pixels. reflexivity. }
  split; [apply timeToMinutes_minutesToTime; lia|].
  intros ->. reflexivity.
Qed.

Lemma resize_postcondition_witness :
  exists snapped c,
    snapToGrid (num_to_q (Int (600 + (2000 - 0)))) = Int snapped /\
    snapped mod 5 = 0 /\
    600 + (2000 - 0) - 2 <= snapped <= 600 + (2000 - 0) + 2 /\
    c = Z.max (540 + 15) (Z.min 1440 snapped) /\
    540 + 15 <= c <= 1440 /\
    resizeMouseMove true (mkResize "1" 0 (Int 600) (Int 540)) 2000
    = Some (OnBlockUpdate "1" (updateEndTime (minutesToTime (Int c)))) /\
    timeToMinutes (minutesToTime (Int c)) = Int (c mod 1440) /\
    (c = 1440 -> minutesToTime (Int c) = "00:00").
Proof.
  apply (resize_postcondition [meeting] "1" 0 2000
           (mkResize "1" 0 (Int 600) (Int 540)) meeting 540 600);
    first [reflexivity | lia].
Defined.

(** X18: the edit form of the plain timeline saves only an end after the
    start: for two well-formed times it refuses an end at or before the
    start, a span across midnight included, and otherwise sends the
    difference as duration, which is then [(end - start) mod 1440]; a time
    that does not read as a number is not refused, and the duration sent is
    [NaN]. *)
Theorem saveEditing_contract (editing : EditingBlock) :
  (forall s e,
     timeToMinutes (eb_startTime editing) = Int s ->
     timeToMinutes (eb_endTime editing) = Int e ->
     0 <= s < 1440 -> 0 <= e < 1440 ->
     (e <= s ->
      saveEditing (Some editing) = Some (Alert "End time must be after start time")) /\
     (s < e ->
      exists u,
        saveEditing (Some editing) = Some (SaveUpdate (eb_id editing) u) /\
        se_startTime u = eb_startTime editing /\
        se_endTime u = eb_endTime editing /\
        se_duration u = Int ((e - s) mod 1440) /\ 0 < (e - s) mod 1440)) /\
  (timeToMinutes (eb_startTime editing) = NaN \/
   timeToMinutes (eb_endTime editing) = NaN ->
   exists u,
     saveEditing (Some editing) = Some (SaveUpdate (eb_id editing) u) /\
     se_duration u = NaN).
Proof.
  split.
  - intros s e Es Ee Hs He. unfold saveEditing. rewrite Es, Ee. simpl. split.
    + intros H. by rewrite (proj2 (Z.leb_le (e - s) 0)) by lia.
    + intros H. rewrite (proj2 (Z.leb_gt (e - s) 0)) by lia.
      eexists. split; [reflexivity|]. cbn [se_startTime se_endTime se_duration].
      rewrite Z.mod_small by lia. repeat split. lia.
  - intros H. unfold saveEditing.
    assert (num_sub (timeToMinutes (eb_endTime editing))
                    (timeToMinutes (eb_startTime editing)) = NaN) as ->.
    { destruct H as [-> | ->]; [by destruct (timeToMinutes _)|done]. }
    simpl. eexists. split; reflexivity.
Qed.

Lemma saveEditing_contract_witness :
  (9 * 60 <= 22 * 60 ->
   saveEditing (Some (mkEditing "1" "Sleep" "22:00" "09:00" sleep))
   = Some (Alert "End time must be after start time")) /\
  (22 * 60 < 9 * 60 ->
   exists u,
     saveEditing (Some (mkEditing "1" "Sleep" "22:00" "09:00" sleep))
     = Some (SaveUpdate "1" u) /\
     se_startTime u = "22:00" /\ se_endTime u = "09:00" /\
     se_duration u = Int ((9 * 60 - 22 * 60) mod 1440) /\
     0 < (9 * 60 - 22 * 60) mod 1440).
Proof.
  apply (proj1 (saveEditing_contract (mkEditing "1" "Sleep" "22:00" "09:00" sleep))
               (22 * 60) (9 * 60));
    first [reflexivity | lia].
Defined.

(** ** Layout Engine, continued *)

(** The doubles of the source: [(9 / 1440) * 24 * 60] is
    9.000000000000002 and [(31 / 60) * 60] is 31.000000000000004. *)
Lemma geometry_in_doubles :
  eventTop (Int 9) = 0x1.2000000000001p+3%float /\
  eventHeight (Int 9) (Int 40) = 0x1.f000000000001p+4%float /\
  eventTop NaN = nan /\
  eventHeight (Int 0) (Int 5) = 20%float.
Proof. repeat split. Qed.

Lemma check_top_true : check_top = true.
Proof. vm_compute. reflexivity. Qed.

Lemma check_height_true : check_height = true.
Proof. vm_compute. reflexivity. Qed.

Lemma eventTop_near (s : Z) :
  0 <= s < 1440 ->
  exists t, float_value (eventTop (Int s)) = Some t /\
            (Qabs (t - inject_Z s) <= 1 # 1000000000000)%Q.
Proof.
  intros Hs. pose proof check_top_true as C. unfold check_top in C.
  rewrite forallb_forall in C. specialize (C s (in_range 1440 s Hs)).
  unfold pixel_near in C.
  destruct (float_value (eventTop (Int s))) as [t|]; [|discriminate].
  exists t. split; [reflexivity|]. by apply Qle_bool_iff.
Qed.

Lemma eventHeight_near (s en : Z) :
  0 <= en - s < 1440 ->
  exists h, float_value (eventHeight (Int s) (Int en)) = Some h /\
            (20 <= h)%Q /\
            (Qabs (h - inject_Z (Z.max 20 (en - s))) <= 1 # 1000000000000)%Q.
Proof.
  intros Hd. pose proof check_height_true as C. unfold check_height in C.
  rewrite forallb_forall in C. specialize (C (en - s) (in_range 1440 _ Hd)).
  assert (eventHeight (Int s) (Int en) = eventHeight (Int 0) (Int (en - s))) as ->
    by (unfold eventHeight; cbn [num_sub]; by rewrite Z.sub_0_r).
  apply andb_prop in C as [C1 C2]. unfold pixel_near in C1.
  destruct (float_value (eventHeight (Int 0) (Int (en - s)))) as [h|];
    [|discriminate].
  exists h. split; [reflexivity|]. split; by apply Qle_bool_iff.
Qed.

Lemma toLayoutEvent_interval (block : ScheduleBlock) (s e : Z) :
  timeToMinutes (startTime block) = Int s ->
  timeToMinutes (endTime block) = Int e ->
  0 <= s < 1440 -> 0 <= e < 1440 ->
  exists en,
    ev_start (toLayoutEvent block) = Int s /\
    ev_end (toLayoutEvent block) = Int en /\
    en - s = Z.max 5 ((e - s) mod 1440) /\ en - s < 1440 /\
    top (toLayoutEvent block) = eventTop (Int s) /\
    height (toLayoutEvent block) = eventHeight (Int s) (Int en).
Proof.
  intros Es Ee Hs He. unfold toLayoutEvent. cbn [ev_start ev_end top height].
  rewrite Es, Ee. cbn [num_lt].
  destruct (e <? s) eqn:C; cbn [num_add num_sub num_lt].
  - apply Z.ltb_lt in C.
    assert ((e - s) mod 1440 = e + 1440 - s) as M
      by (symmetry; apply (Z.mod_unique_pos _ _ (-1)); lia).
    destruct (e + 1440 - s <? 5) eqn:C2; eexists;
      (split; [reflexivity|]); (split; [reflexivity|]);
      (split; [lia|]); (split; [lia|]); split; reflexivity.
  - apply Z.ltb_ge in C.
    assert ((e - s) mod 1440 = e - s) as M by (apply Z.mod_small; lia).
    destruct (e - s <? 5) eqn:C2; eexists;
      (split; [reflexivity|]); (split; [reflexivity|]);
      (split; [lia|]); (split; [lia|]); split; reflexivity.
Qed.

(** X19: for a block with well-formed times the event starts at the
    block's start minute and lasts [(end - start) mod 1440] minutes, 5 at
    least, so less than a day.  It is drawn one pixel per minute from its
    start and at least 20 pixels high, up to the rounding of the double
    arithmetic: [top] and [height] are finite doubles within [10^-12] of
    the start minute and of the larger of 20 and the length, and [height]
    is never below 20. *)
Theorem toLayoutEvent_geometry (block : ScheduleBlock) :
  wf_time (startTime block) = true -> wf_time (endTime block) = true ->
  exists s e en t h,
    timeToMinutes (startTime block) = Int s /\
    timeToMinutes (endTime block) = Int e /\
    ev_start (toLayoutEvent block) = Int s /\
    ev_end (toLayoutEvent block) = Int en /\
    en - s = Z.max 5 ((e - s) mod 1440) /\ en - s < 1440 /\
    float_value (top (toLayoutEvent block)) = Some t /\
    (Qabs (t - inject_Z s) <= 1 # 1000000000000)%Q /\
    float_value (height (toLayoutEvent block)) = Some h /\
    (20 <= h)%Q /\
    (Qabs (h - inject_Z (Z.max 20 (en - s))) <= 1 # 1000000000000)%Q.
Proof.
  intros Ws We.
  destruct (wf_time_minutes _ Ws) as (s & Es & Hs).
  destruct (wf_time_minutes _ We) as (e & Ee & He).
  destruct (toLayoutEvent_interval block s e Es Ee Hs He)
    as (en & H1 & H2 & H3 & H4 & H5 & H6).
  destruct (eventTop_near s Hs) as (t & Ht & Hts).
  destruct (eventHeight_near s en ltac:(lia)) as (h & Hh & Hh20 & Hhs).
  exists s, e, en, t, h. rewrite H5, H6. by repeat split.
Qed.

Lemma toLayoutEvent_geometry_witness :
  exists s e en t h,
    timeToMinutes "00:09" = Int s /\
    timeToMinutes "00:40" = Int e /\
    ev_start (toLayoutEvent (mkBlock "9" "Call" "00:09" "00:40" 31 work None None None))
    = Int s /\
    ev_end (toLayoutEvent (mkBlock "9" "Call" "00:09" "00:40" 31 work None None None))
    = Int en /\
    en - s = Z.max 5 ((e - s) mod 1440) /\ en - s < 1440 /\
    float_value
      (top (toLayoutEvent (mkBlock "9" "Call" "00:09" "00:40" 31 work None None None)))
    = Some t /\
    (Qabs (t - inject_Z s) <= 1 # 1000000000000)%Q /\
    float_value
      (height (toLayoutEvent (mkBlock "9" "Call" "00:09" "00:40" 31 work None None None)))
    = Some h /\
    (20 <= h)%Q /\
    (Qabs (h - inject_Z (Z.max 20 (en - s))) <= 1 # 1000000000000)%Q.
Proof.
  apply (toLayoutEvent_geometry
           (mkBlock "9" "Call" "00:09" "00:40" 31 work None None None));
    reflexivity.
Defined.

Lemma placeEvent_content st i :
  map content (events (placeEvent st i)) = map content (events st).
Proof.
  unfold placeEvent. destruct (events st !! i); [|done].
  destruct (findGroup _ _ _ _); cbn [events]; by apply map_alter_same.
Qed.

Lemma assignLanes_content evs :
  map content (events (assignLanes evs)) = map content evs.
Proof.
  unfold assignLanes.
  change evs with (events {| events := evs; groups := [] |}) at 3.
  generalize {| events := evs; groups := [] |}. generalize (seq 0 (length evs)).
  intros l. induction l as [|i l IH]; intros st; simpl; [done|].
  by rewrite IH, placeEvent_content.
Qed.

Lemma assignLaneCounts_content gs :
  forall store, map content (fold_left assignLaneCount gs store) = map content store.
Proof.
  induction gs as [|g gs IH]; intros store; simpl; [done|].
  rewrite IH. unfold assignLaneCount. generalize (maxLane store g + 1)%nat as c.
  intros c. revert store. induction g as [|i g IHg]; intros store; simpl; [done|].
  rewrite IHg. by apply map_alter_same.
Qed.

Lemma layoutEvents_content blocks :
  map content (layoutEvents blocks) = map content (sortedEvents blocks).
Proof.
  rewrite layoutEvents_state. cbn [layoutState events].
  by rewrite assignLaneCounts_content, assignLanes_content.
Qed.

(** X20: the layout returns one event for each block: the events' blocks
    are the given blocks in some order, every event is the conversion of
    its block apart from the lane and the lane count, and, when the times
    read as numbers, the events come in order of start. *)
Theorem layout_events_shape (blocks : list ScheduleBlock) :
  map originalBlock (layoutEvents blocks) ≡ₚ blocks /\
  Forall (fun e => content e = content (toLayoutEvent (originalBlock e)))
         (layoutEvents blocks) /\
  (forallb parsesBoth blocks = true ->
   forall i j ei ej,
     (i < j)%nat ->
     layoutEvents blocks !! i = Some ei -> layoutEvents blocks !! j = Some ej ->
     num_le (ev_start ei) (ev_start ej) = true).
Proof.
  pose proof (layoutEvents_content blocks) as HC.
  assert (HP : sortedEvents blocks ≡ₚ map toLayoutEvent blocks)
    by apply Array_sort_perm.
  split; [|split].
  - replace (map originalBlock (layoutEvents blocks))
      with (map content_block (map content (layoutEvents blocks)))
      by (by rewrite map_map).
    rewrite HC, map_map.
    change (map (fun x => content_block (content x)) (sortedEvents blocks))
      with (map originalBlock (sortedEvents blocks)).
    rewrite HP, map_map. simpl. by rewrite map_id.
  - assert (Forall (fun c => c = content (toLayoutEvent (content_block c)))
                   (map content (layoutEvents blocks))) as HF.
    { rewrite HC. apply Forall_forall. intros c Hc.
      apply list_elem_of_In, in_map_iff in Hc as (e & <- & He).
      apply list_elem_of_In in He. rewrite HP in He.
      apply list_elem_of_In, in_map_iff in He as (b & <- & _). reflexivity. }
    rewrite Forall_forall in HF. apply Forall_forall. intros e He.
    apply (HF (content e)). apply list_elem_of_In, in_map.
    by apply list_elem_of_In.
  - intros Hp i j ei ej Hij Hi Hj.
    assert (Forall timed (map toLayoutEvent blocks)) as Ht.
    { rewrite forallb_forall in Hp. apply Forall_forall. intros e He.
      apply list_elem_of_In, in_map_iff in He as (b & <- & Hb).
      by apply toLayoutEvent_timed, Hp. }
    pose proof (sorted_events_ordered _ Ht) as HS.
    fold (sortedEvents blocks) in HS.
    destruct (lookup_same_map content _ _ _ _ HC Hi) as (ei' & Hi' & Ei).
    destruct (lookup_same_map content _ _ _ _ HC Hj) as (ej' & Hj' & Ej).
    pose proof (StronglySorted_lookup_le _ _ HS i j ei' ej' Hij Hi' Hj') as L.
    unfold starts_before in L.
    assert (ev_start ei = ev_start ei') as ->
      by (unfold content in Ei; congruence).
    assert (ev_start ej = ev_start ej') as ->
      by (unfold content in Ej; congruence).
    exact L.
Qed.

Lemma layout_events_shape_witness :
  map originalBlock (layoutEvents scenarioC) ≡ₚ scenarioC /\
  Forall (fun e => content e = content (toLayoutEvent (originalBlock e)))
         (layoutEvents scenarioC) /\
  (forallb parsesBoth scenarioC = true ->
   forall i j ei ej,
     (i < j)%nat ->
     layoutEvents scenarioC !! i = Some ei -> layoutEvents scenarioC !! j = Some ej ->
     num_le (ev_start ei) (ev_start ej) = true).
Proof. apply (layout_events_shape scenarioC). Defined.

(** *** Lanes within a group *)

Lemma firstFreeLane_seq (k : nat) :
  forall fuel lane,
    (lane <= k)%nat -> (k - lane < fuel)%nat ->
    firstFreeLane (seq 0 k) fuel lane = k.
Proof.
  induction fuel as [|fuel IH]; intros lane Hle Hf; [lia|].
  cbn [firstFreeLane]. case_bool_decide as Hin.
  - apply elem_of_seq in Hin. apply IH; lia.
  - rewrite elem_of_seq in Hin. lia.
Qed.

Lemma findGroup_Some store event gs :
  forall k0 k,
    findGroup store event gs k0 = Some k ->
    (k0 <= k)%nat /\ exists g, gs !! (k - k0)%nat = Some g.
Proof.
  induction gs as [|g gs IH]; intros k0 k H; cbn [findGroup] in H; [done|].
  destruct (overlapsGroup store event g).
  - injection H as <-. rewrite Nat.sub_diag. split; [lia|]. by exists g.
  - destruct (IH _ _ H) as (Hle & g' & Hg'). split; [lia|]. exists g'.
    replace (k - k0)%nat with (S (k - S k0)) by lia. exact Hg'.
Qed.

Lemma concat_alter_snoc (gs : list Group) (x : nat) :
  forall k g,
    gs !! k = Some g ->
    concat (alter (fun g => g ++ [x]) k gs) ≡ₚ concat gs ++ [x].
Proof.
  induction gs as [|g0 gs IH]; intros [|k] g H; try done; simpl.
  - by rewrite <- !app_assoc, (Permutation_app_comm [x]).
  - rewrite (IH k g H). by rewrite app_assoc.
Qed.

Lemma groupEvents_alter_outside store (f : LayoutEvent -> LayoutEvent) i g :
  i ∉ g -> groupEvents (alter f i store) g = groupEvents store g.
Proof.
  intros Hni. unfold groupEvents. induction g as [|j g IH]; [done|].
  apply not_elem_of_cons in Hni as [Hne Hni]. specialize (IH Hni).
  simpl. rewrite list_lookup_alter_ne by done.
  destruct (store !! j); simpl; [f_equal|]; exact IH.
Qed.

Lemma max_seq (k : nat) : forall a, foldr Nat.max 0%nat (seq a (S k)) = (a + k)%nat.
Proof.
  induction k as [|k IH]; intros a.
  - simpl. lia.
  - change (seq a (S (S k))) with (a :: seq (S a) (S k)).
    cbn [foldr]. rewrite IH. lia.
Qed.

Lemma placeEvent_length st i :
  length (events (placeEvent st i)) = length (events st).
Proof.
  pose proof (placeEvent_content st i) as H.
  apply (f_equal length) in H. by rewrite !length_map in H.
Qed.

Lemma placeEvent_fill st n :
  (n < length (events st))%nat -> FillInv n st -> FillInv (S n) (placeEvent st n).
Proof.
  intros Hn [Hc Hl]. unfold placeEvent.
  destruct (lookup_lt_is_Some_2 _ _ Hn) as [ev Hev]. rewrite Hev.
  assert (Hout : forall g, g ∈ groups st -> n ∉ g).
  { intros g Hg Hin.
    assert (n ∈ concat (groups st)) as Hcat.
    { apply list_elem_of_In, in_concat. exists g. split; by apply list_elem_of_In. }
    rewrite Hc in Hcat. apply elem_of_seq in Hcat. lia. }
  rewrite Forall_forall in Hl.
  destruct (findGroup (events st) ev (groups st) 0) as [k|] eqn:Ek.
  - destruct (findGroup_Some _ _ _ _ _ Ek) as (_ & g & Hg).
    rewrite Nat.sub_0_r in Hg. cbv zeta. unfold Group in *. rewrite Hg.
    change (default [] (Some g)) with g.
    assert (Hgin : g ∈ groups st) by (by eapply list_elem_of_lookup_2).
    rewrite (Hl g Hgin), length_seq.
    rewrite (firstFreeLane_seq (length g)) by lia.
    split; cbn [events groups].
    + rewrite (concat_alter_snoc _ _ _ _ Hg), Hc. by rewrite seq_S.
    + apply Forall_alter.
      * apply Forall_forall. intros g' Hg'.
        rewrite groupEvents_alter_outside by auto. auto.
      * intros g' Hg' Hlanes.
        pose proof (eq_trans (eq_sym Hg') Hg) as E. injection E as ->.
        unfold groupEvents in *. rewrite omap_app, map_app, Hlanes.
        rewrite length_app, Nat.add_1_r, seq_S. f_equal.
        simpl. by rewrite list_lookup_alter_eq, Hev.
  - split; cbn [events groups].
    + rewrite concat_app, Hc. by rewrite seq_S.
    + apply Forall_app. split.
      * apply Forall_forall. intros g' Hg'.
        rewrite groupEvents_alter_outside by auto. auto.
      * apply Forall_singleton. unfold groupEvents. simpl.
        by rewrite list_lookup_alter_eq, Hev.
Qed.

Lemma place_all_fill :
  forall m n st,
    FillInv n st -> (n + m <= length (events st))%nat ->
    FillInv (n + m) (fold_left placeEvent (seq n m) st).
Proof.
  induction m as [|m IH]; intros n st Hinv Hle; simpl.
  - by rewrite Nat.add_0_r.
  - replace (n + S m)%nat with (S n + m)%nat by lia.
    apply IH; [apply placeEvent_fill; [lia|done]|].
    rewrite placeEvent_length. lia.
Qed.

Lemma assignLanes_fill evs : FillInv (length evs) (assignLanes evs).
Proof.
  unfold assignLanes.
  apply (place_all_fill (length evs) 0%nat); [|done].
  split; cbn [events groups]; [done|by apply Forall_nil].
Qed.

Lemma sortedEvents_length blocks : length (sortedEvents blocks) = length blocks.
Proof.
  unfold sortedEvents. by rewrite Array_sort_perm, length_map.
Qed.

Lemma lanePair_map (c : nat) (l : list LayoutEvent) :
  forall ks,
    map lane l = ks -> Forall (fun e => laneCount e = c) l ->
    map lanePair l = map (fun k => (k, c)) ks.
Proof.
  induction l as [|e l IH]; intros ks Hk Hc; subst ks; [done|].
  apply Forall_cons in Hc as [He Hc]. simpl. unfold lanePair at 1.
  rewrite He. f_equal. by apply IH.
Qed.

Lemma layout_groups blocks (g : Group) :
  g ∈ groups (layoutState blocks) ->
  map lanePair (groupEvents (layoutEvents blocks) g)
  = map (fun k => (k, length g)) (seq 0 (length g)).
Proof.
  rewrite layoutEvents_state. cbn [layoutState events groups].
  destruct (assignLanes_fill (sortedEvents blocks)) as [Hc Hl].
  set (st := assignLanes (sortedEvents blocks)) in *.
  pose proof (assignLaneCounts_placed (groups st) (events st)) as Hpl.
  set (final := fold_left assignLaneCount (groups st) (events st)) in *.
  intros Hg. rewrite Forall_forall in Hl. pose proof (Hl g Hg) as Hlanes.
  apply lanePair_map.
  - by rewrite (groupEvents_lanes final (events st) g (placed_lane _ _ Hpl)).
  - apply Forall_forall. intros e He.
    apply list_elem_of_omap in He as (i & Hi & He).
    assert (NoDup (concat (groups st))) as Hnd
      by (rewrite Hc; apply NoDup_seq).
    rewrite (assignLaneCounts_inside (groups st) (events st) g i e Hnd Hg Hi He).
    unfold maxLane. rewrite Hlanes.
    destruct (length g) as [|k] eqn:El.
    + apply length_zero_iff_nil in El. subst g. by apply elem_of_nil in Hi.
    + rewrite max_seq. lia.
Qed.

(** X21: within a group the lanes are handed out in the order of joining
    and never reused: the members of a group of [n] events carry the lanes
    0, 1, ..., n-1 and all of them the lane count [n], also when two
    members do not overlap each other; the groups hold every event exactly
    once; so every event's lane is below its lane count. This holds for
    all block lists, unreadable times included. *)
Theorem lanes_fill_group (blocks : list ScheduleBlock) :
  concat (groups (layoutState blocks)) ≡ₚ seq 0 (length blocks) /\
  (forall g,
     g ∈ groups (layoutState blocks) ->
     map lanePair (groupEvents (layoutEvents blocks) g)
     = map (fun k => (k, length g)) (seq 0 (length g))) /\
  Forall (fun e => (lane e < laneCount e)%nat) (layoutEvents blocks).
Proof.
  assert (Hcov : concat (groups (layoutState blocks)) ≡ₚ seq 0 (length blocks)).
  { cbn [layoutState groups].
    destruct (assignLanes_fill (sortedEvents blocks)) as [Hc _].
    by rewrite Hc, sortedEvents_length. }
  split; [exact Hcov|]. split; [apply layout_groups|].
  apply Forall_forall. intros e He.
  apply list_elem_of_lookup_1 in He as [i Hi].
  assert (i ∈ concat (groups (layoutState blocks))) as Hcat.
  { rewrite Hcov. apply elem_of_seq. split; [lia|].
    apply lookup_lt_Some in Hi.
    pose proof (layoutEvents_content blocks) as HC.
    apply (f_equal length) in HC. rewrite !length_map, sortedEvents_length in HC.
    simpl. lia. }
  apply list_elem_of_In, in_concat in Hcat as (g & Hg & Hig).
  apply list_elem_of_In in Hg, Hig.
  pose proof (layout_groups blocks g Hg) as Hmap.
  assert (lanePair e ∈ map lanePair (groupEvents (layoutEvents blocks) g)) as Hin.
  { apply list_elem_of_In, in_map, list_elem_of_In, list_elem_of_omap. eauto. }
  rewrite Hmap in Hin.
  apply list_elem_of_In, in_map_iff in Hin as (k & Ek & Hk).
  apply in_seq in Hk. unfold lanePair in Ek. injection Ek as E1 E2. lia.
Qed.

(** *** Schedules without overlaps *)

Lemma apartb_perm (l l' : list LayoutEvent) :
  l ≡ₚ l' -> apartb l = true -> apartb l' = true.
Proof.
  induction 1 as [|x l l' HP IH|x y l|l l' l'' _ IH1 _ IH2]; intros H; auto.
  - simpl in *. apply andb_prop in H as [Hx Hl].
    apply andb_true_intro. split; [|auto].
    rewrite forallb_forall in *. intros z Hz. apply Hx.
    apply list_elem_of_In. rewrite HP. by apply list_elem_of_In.
  - simpl in *. apply andb_prop in H as [Hy H]. apply andb_prop in Hy as [Hyx Hy].
    apply andb_prop in H as [Hx Hl].
    rewrite overlapsEvent_sym in Hyx. by rewrite Hyx, Hx, Hy, Hl.
Qed.

Lemma apartb_lookup (l : list LayoutEvent) :
  apartb l = true ->
  forall i j ei ej,
    i <> j -> l !! i = Some ei -> l !! j = Some ej ->
    overlapsEvent ei ej = false.
Proof.
  intros H.
  assert (Hlt : forall i j ei ej,
            (i < j)%nat -> l !! i = Some ei -> l !! j = Some ej ->
            overlapsEvent ei ej = false).
  { induction l as [|x l IH]; intros i j ei ej Hij Hi Hj; [done|].
    simpl in H. apply andb_prop in H as [Hx Hl].
    destruct j as [|j]; [lia|]. destruct i as [|i].
    - injection Hi as <-. rewrite forallb_forall in Hx.
      apply negb_true_iff, Hx, list_elem_of_In. by eapply list_elem_of_lookup_2.
    - apply (IH Hl i j); [lia|done..]. }
  intros i j ei ej Hne Hi Hj.
  destruct (decide (i < j)%nat); [by eapply Hlt|].
  rewrite overlapsEvent_sym. apply (Hlt j i); [lia|done..].
Qed.

Lemma placeEvent_alone (evs0 : list LayoutEvent) st n :
  apartb evs0 = true -> (n < length evs0)%nat ->
  map interval (events st) = map interval evs0 ->
  groups st = map (fun i => [i]) (seq 0 n) ->
  map interval (events (placeEvent st n)) = map interval evs0 /\
  groups (placeEvent st n) = map (fun i => [i]) (seq 0 (S n)).
Proof.
  intros Ha Hn Ht Hg.
  destruct (lookup_lt_is_Some_2 evs0 n Hn) as [e0 He0].
  destruct (lookup_same_map interval _ (events st) _ _ (eq_sym Ht) He0)
    as (event & Hev & Hiv).
  unfold placeEvent. rewrite Hev.
  assert (findGroup (events st) event (groups st) 0 = None) as ->.
  { rewrite <- (app_nil_r (groups st)), findGroup_skip; [done|].
    rewrite Hg. apply Forall_forall. intros g Hin.
    apply list_elem_of_In, in_map_iff in Hin as (i & <- & Hi).
    apply in_seq in Hi. unfold overlapsGroup, groupEvents. simpl.
    destruct (events st !! i) as [ei|] eqn:Ei; [|done]. simpl.
    destruct (lookup_same_map interval _ _ _ _ Ht Ei) as (ei0 & Ei0 & Eiv).
    rewrite (overlapsEvent_interval event e0 ei ei0) by done.
    rewrite (apartb_lookup evs0 Ha n i e0 ei0) by (done || lia). done. }
  cbn [events groups]. split; [by rewrite map_alter_same|].
  by rewrite Hg, seq_S, map_app.
Qed.

Lemma place_all_alone (evs0 : list LayoutEvent) :
  apartb evs0 = true ->
  forall m n st,
    (n + m <= length evs0)%nat ->
    map interval (events st) = map interval evs0 ->
    groups st = map (fun i => [i]) (seq 0 n) ->
    groups (fold_left placeEvent (seq n m) st)
    = map (fun i => [i]) (seq 0 (n + m)).
Proof.
  intros Ha. induction m as [|m IH]; intros n st Hle Ht Hg; simpl.
  - by rewrite Nat.add_0_r.
  - replace (n + S m)%nat with (S n + m)%nat by lia.
    destruct (placeEvent_alone evs0 st n Ha) as [Ht' Hg']; [lia|done..|].
    apply IH; [lia|done..].
Qed.

Lemma apart_single_column blocks :
  apartb (map toLayoutEvent blocks) = true ->
  Forall (fun e => lane e = 0%nat /\ laneCount e = 1%nat) (layoutEvents blocks).
Proof.
  intros Ha.
  assert (apartb (sortedEvents blocks) = true) as Hs.
  { apply (apartb_perm (map toLayoutEvent blocks)); [|done].
    symmetry. apply Array_sort_perm. }
  assert (groups (layoutState blocks)
          = map (fun i => [i]) (seq 0 (length (sortedEvents blocks)))) as Hg.
  { cbn [layoutState groups]. unfold assignLanes.
    by apply (place_all_alone (sortedEvents blocks) Hs _ 0%nat). }
  apply Forall_forall. intros e He.
  apply list_elem_of_lookup_1 in He as [i Hi].
  assert ((i < length (sortedEvents blocks))%nat) as Hlt.
  { apply lookup_lt_Some in Hi.
    pose proof (layoutEvents_content blocks) as HC.
    apply (f_equal length) in HC. rewrite !length_map in HC. lia. }
  assert ([i] ∈ groups (layoutState blocks)) as Hin.
  { rewrite Hg. apply list_elem_of_In, in_map_iff. exists i.
    split; [done|]. apply in_seq. lia. }
  pose proof (layout_groups blocks [i] Hin) as Hmap.
  unfold groupEvents in Hmap. simpl in Hmap. rewrite Hi in Hmap.
  simpl in Hmap. unfold lanePair in Hmap. by injection Hmap as -> ->.
Qed.

(** X22: a schedule in which no two events overlap is drawn in a single
    column: every event gets lane 0 and lane count 1. *)
Theorem layout_single_column (blocks : list ScheduleBlock) :
  apartb (map toLayoutEvent blocks) = true ->
  Forall (fun e => lane e = 0%nat /\ laneCount e = 1%nat) (layoutEvents blocks).
Proof. apply apart_single_column. Qed.

Lemma layout_single_column_witness :
  apartb (map toLayoutEvent [meeting; offGrid]) = false /\
  apartb (map toLayoutEvent
            (blocks (validateAndFixSchedule (mkDay morning) ""))) = true /\
  Forall (fun e => lane e = 0%nat /\ laneCount e = 1%nat)
         (layoutEvents (blocks (validateAndFixSchedule (mkDay morning) ""))).
Proof.
  split; [reflexivity|]. split; [reflexivity|].
  apply (layout_single_column
           (blocks (validateAndFixSchedule (mkDay morning) ""))).
  reflexivity.
Defined.

Lemma repaired_apart l :
  forall prevEnd,
    0 <= prevEnd ->
    repaired_from prevEnd l ->
    forallb ends_same_day l = true ->
    apartb (map toLayoutEvent l) = true /\
    Forall (fun b => exists s, ev_start (toLayoutEvent b) = Int s /\ prevEnd <= s) l.
Proof.
  induction l as [|b l IH]; intros prevEnd H0 HR Hs; [by split|].
  destruct HR as (A & EA & LA & Hd & EE & HR).
  simpl in Hs. apply andb_prop in Hs as [Hb Hs].
  unfold ends_same_day in Hb. rewrite EA in Hb. simpl in Hb. apply Z.ltb_lt in Hb.
  rewrite Z.mod_small in EE, HR by lia.
  destruct (IH (A + duration b) ltac:(lia) HR Hs) as [Hap Hst].
  split.
  - simpl. apply andb_true_intro. split; [|exact Hap].
    apply forallb_forall. intros y Hy.
    apply in_map_iff in Hy as (b' & <- & Hb').
    rewrite Forall_forall in Hst.
    destruct (Hst b' (proj2 (list_elem_of_In _ _) Hb')) as (s & Es & Hle).
    unfold overlapsEvent. rewrite Es.
    assert (ev_end (toLayoutEvent b) = Int (A + duration b)) as ->.
    { unfold toLayoutEvent. cbn [ev_end]. rewrite EA, EE. simpl.
      replace (A + duration b <? A) with false by (symmetry; apply Z.ltb_ge; lia).
      simpl.
      replace (A + duration b - A <? 5) with false
        by (symmetry; apply Z.ltb_ge; lia).
      done. }
    simpl. replace (A + duration b <=? s) with true
      by (symmetry; apply Z.leb_le; lia). done.
  - constructor.
    + exists A. split; [exact EA|lia].
    + eapply Forall_impl; [exact Hst|]. intros b' (s & Es & Hle).
      exists s. split; [done|lia].
Qed.

(** X23: the Repairer and the layout engine together: when the repaired
    blocks all end before midnight of the day they start on, the repaired
    schedule is drawn in a single column, every event with lane 0 and
    lane count 1. *)
Theorem repaired_day_single_column
    (schedule : DailySchedule) (originalInput : string) :
  forallb (fun b => parses (startTime b)) (blocks schedule) = true ->
  forallb ends_same_day
    (blocks (validateAndFixSchedule schedule originalInput)) = true ->
  Forall (fun e => lane e = 0%nat /\ laneCount e = 1%nat)
         (layoutEvents (blocks (validateAndFixSchedule schedule originalInput))).
Proof.
  intros Hp Hs. apply apart_single_column.
  unfold validateAndFixSchedule in *. cbn [blocks] in *.
  apply (repaired_apart _ 0); [lia| |exact Hs].
  apply fixBlocks_repaired; [apply zero_parses | lia | by apply sorted_parses].
Qed.

Lemma repaired_day_single_column_witness :
  Forall (fun e => lane e = 0%nat /\ laneCount e = 1%nat)
         (layoutEvents (blocks (validateAndFixSchedule (mkDay morning) ""))).
Proof.
  apply (repaired_day_single_column (mkDay morning) ""); reflexivity.
Defined.
